(** * Document-Query-Chatbot: a shallow embedding of [app.py]

    [app.py] is a Streamlit script.  Every user interaction reruns the
    script top to bottom against a session state that outlives the run, a
    process-wide resource cache ([st.cache_resource]) and the file system.
    The script is embedded as a state-and-exception monad over a [World]
    that holds exactly those stores, together with a log of the effects the
    script performs, in program order.  The [ragbase] package, the clock
    and the random generator are collaborators: they are taken as a record
    of functions over an opaque external state. *)

From Stdlib Require Import ZArith DecimalString.
From stdpp Require Import gmap strings list.

(** ** Python values that the script handles *)

(** The newline character written as [\n] in the source. *)
Definition nl : string := String (Ascii.ascii_of_nat 10) EmptyString.

(** [str(n)] for a non-negative [int], as produced by an f-string. *)
Definition str_of_nat (n : nat) : string :=
  NilZero.string_of_uint (Nat.to_uint n).

(** [%m], [%d], [%H], [%M] and [%S]: two digits, zero padded. *)
Definition pad2 (n : nat) : string :=
  if Nat.ltb n 10 then "0" +:+ str_of_nat n else str_of_nat n.

(** The fields of a [datetime] that [strftime] reads. *)
Record DateTime := {
  year : nat; month : nat; day : nat;
  hour : nat; minute : nat; second : nat
}.

(** [dt.strftime("%Y-%m-%d %H:%M:%S")]. *)
Definition strftime (dt : DateTime) : string :=
  str_of_nat (year dt) +:+ "-" +:+ pad2 (month dt) +:+ "-" +:+ pad2 (day dt)
  +:+ " " +:+ pad2 (hour dt) +:+ ":" +:+ pad2 (minute dt) +:+ ":"
  +:+ pad2 (second dt).

(** An uploaded file as Streamlit hashes it for the resource cache: its
    name, its read position ([tell()]) and its bytes. *)
Record UploadedFile := {
  file_name : string;
  file_position : nat;
  file_data : string
}.

#[global] Instance UploadedFile_eq_dec : EqDecision UploadedFile.
Proof. solve_decision. Defined.

#[global] Instance UploadedFile_countable : Countable UploadedFile.
Proof.
  refine (inj_countable'
            (fun f => (file_name f, file_position f, file_data f))
            (fun p => {| file_name := p.1.1; file_position := p.1.2;
                         file_data := p.2 |}) _).
  by intros [].
Defined.

(** A chat message: the dict [{"role": ..., "content": ...}]. *)
Record Message := { role : string; content : string }.

(** A source document; the script reads only [page_content]. *)
Record Document := { page_content : string }.

(** What [ask_question] may yield.  The loop of [ask_chain] dispatches on
    [type(event) is str] and [type(event) is list], which are exact type
    tests: an instance of a subclass of [str] or of [list] passes
    neither. *)
Inductive StreamEvent :=
  | EvStr (s : string)
  | EvList (docs : list Document)
  | EvStrSubclass (s : string)
  | EvListSubclass (docs : list Document)
  | EvOther.

(** [type(event) is str] *)
Definition type_is_str (event : StreamEvent) : bool :=
  match event with EvStr _ => true | _ => false end.

(** [type(event) is list] *)
Definition type_is_list (event : StreamEvent) : bool :=
  match event with EvList _ => true | _ => false end.

(** Truthiness of the widget values the script tests. *)
Definition truthy_files (v : option (list UploadedFile)) : bool :=
  match v with
  | None | Some [] => false
  | Some (_ :: _) => true
  end.

Definition truthy_str (v : option string) : bool :=
  match v with
  | None | Some "" => false
  | Some _ => true
  end.

(** ** Module-level constants of [app.py] *)

Definition LOADING_MESSAGES : list string := [
  "Searching through our knowledge base...";
  "Analyzing relevant documents...";
  "Connecting information from multiple sources...";
  "Retrieving context-specific data...";
  "Synthesizing insights from company documents...";
  "Extracting key information from our database...";
  "Combining relevant data points...";
  "Processing organizational knowledge...";
  "Accessing secure company archives...";
  "Integrating information across departments..."
].

Definition hide_st_style : string := "
                <style>
                #MainMenu {visibility : hidden;}
                header {visibility : hidden;}
                </style>
                ".

Definition emotion_cache_style : string := "
<style>
    .st-emotion-cache-p4micv {
        width: 2.75rem;
        height: 2.75rem;
    }
</style>
".

Definition greeting : Message :=
  {| role := "assistant";
     content := "Hi! I'm VS-Bot 🤖, How can I help you today?" |}.

(** ** [ragbase.config.Config]

    The constants the script reads; their values live outside [app.py]. *)
Record Config := {
  DATABASE_DIR : string;
  IMAGES_DIR : string;
  CONVERSATION_MESSAGES_LIMIT : Z;
  SHOW_SOURCES : bool;
  VERSION : string
}.

(** [pathlib]'s [dir / name]. *)
Definition path_join (dir name : string) : string := dir +:+ "/" +:+ name.

(** ** Streamlit's session state *)

(** An attribute that was never assigned is absent; reading it raises. *)
Record SessionState := {
  messages : option (list Message);
  last_trained : option string;
  files_ingested : option nat
}.

Definition empty_session : SessionState :=
  {| messages := None; last_trained := None; files_ingested := None |}.

(** ** Effects, the world and the script monad *)

(** Calls into Streamlit that draw on the page or stop the run. *)
Inductive StCall :=
  | StSetPageConfig (page_title page_icon : string)
  | StHtml (body : string)
  | StMarkdown (body : string)
  | StEmpty
  | StContainer
  | StTitle (body : string)
  | StHeader (body : string)
  | StSubheader (body : string)
  | StFileUploader (label : string)
  | StWarning (body : string)
  | StStop
  | StSpinner (text : string)
  | StHolderEmpty
  | StChatMessage (name avatar : string)
  | StPlaceholderStatus (label : string)
  | StPlaceholderMarkdown (body : string)
  | StExpander (label : string)
  | StWriteText (body : string)
  | StColumns
  | StSuccess (body : string)
  | StInfo (body : string)
  | StChatInput (placeholder : string).

Section App.

(** Handles that the collaborators return: opaque to [app.py]. *)
Context {FilePaths VectorStore LLM Retriever Chain : Type}.
(** Exceptions a collaborator may raise, and the state of everything
    outside the script (vector database, model, clock, generator). *)
Context {Exn Ext : Type}.

(** One entry of the effect log. *)
Inductive Effect :=
  | Render (c : StCall)
  | Makedirs (dir : string)
  | FileOpenW (path : string)
  | FileWrite (path data : string)
  | SessionSet (attr : string)
  | MessagesAppend (m : Message)
  | CallUploadFiles (files : list UploadedFile)
  | CallIngest (file_paths : FilePaths)
  | CallCreateLlm
  | CallCreateRetriever (llm : LLM) (vector_store : VectorStore)
  | CallCreateChain (llm : LLM) (retriever : Retriever)
  | CallAskQuestion (chain : Chain) (question session_id : string).

(** The collaborator calls that [build_qa_chain] makes. *)
Inductive Collaborator :=
  UploadFiles | Ingest | CreateLlm | CreateRetriever | CreateChain.

Definition collaborator_of (e : Effect) : option Collaborator :=
  match e with
  | CallUploadFiles _ => Some UploadFiles
  | CallIngest _ => Some Ingest
  | CallCreateLlm => Some CreateLlm
  | CallCreateRetriever _ _ => Some CreateRetriever
  | CallCreateChain _ _ => Some CreateChain
  | _ => None
  end.

Definition is_collaborator_call (e : Effect) : Prop :=
  is_Some (collaborator_of e).

Record World := {
  session : SessionState;
  fs : gmap string string;              (* path -> file contents *)
  dirs : gset string;                   (* directories that exist *)
  cache : gmap (list UploadedFile) Chain; (* st.cache_resource *)
  log : list Effect;                    (* oldest entry first *)
  ext : Ext
}.

Definition with_session (s : SessionState) (w : World) : World :=
  {| session := s; fs := fs w; dirs := dirs w; cache := cache w;
     log := log w; ext := ext w |}.
Definition with_fs (f : gmap string string) (w : World) : World :=
  {| session := session w; fs := f; dirs := dirs w; cache := cache w;
     log := log w; ext := ext w |}.
Definition with_dirs (d : gset string) (w : World) : World :=
  {| session := session w; fs := fs w; dirs := d; cache := cache w;
     log := log w; ext := ext w |}.
Definition with_cache (c : gmap (list UploadedFile) Chain) (w : World)
  : World :=
  {| session := session w; fs := fs w; dirs := dirs w; cache := c;
     log := log w; ext := ext w |}.
Definition with_log (l : list Effect) (w : World) : World :=
  {| session := session w; fs := fs w; dirs := dirs w; cache := cache w;
     log := l; ext := ext w |}.
Definition with_ext (e : Ext) (w : World) : World :=
  {| session := session w; fs := fs w; dirs := dirs w; cache := cache w;
     log := log w; ext := e |}.

(** Python exceptions that can cross the script. *)
Inductive PyExn :=
  | CollaboratorError (e : Exn)
  | AttributeError (attr : string).

(** How a piece of the script ends: it returns, [st.stop()] ends the
    run, or an exception propagates. *)
Inductive Outcome (A : Type) :=
  | Ret (a : A)
  | Stopped
  | Raised (e : PyExn).
Global Arguments Ret {A} a.
Global Arguments Stopped {A}.
Global Arguments Raised {A} e.

Definition M (A : Type) : Type := World -> Outcome A * World.

Definition ret {A} (a : A) : M A := fun w => (Ret a, w).

Definition bind {A B} (m : M A) (k : A -> M B) : M B := fun w =>
  match m w with
  | (Ret a, w') => k a w'
  | (Stopped, w') => (Stopped, w')
  | (Raised e, w') => (Raised e, w')
  end.

Global Instance M_ret : MRet M := @ret.
Global Instance M_bind : MBind M := fun A B k m => bind m k.

Definition emit (e : Effect) : M unit := fun w =>
  (Ret tt, with_log (log w ++ [e]) w).

Definition st (c : StCall) : M unit := emit (Render c).

(** [st.stop()] *)
Definition st_stop {A} : M A := fun w =>
  (Stopped, with_log (log w ++ [Render StStop]) w).

Definition raise {A} (e : PyExn) : M A := fun w => (Raised e, w).

(** [for x in xs: body(x)] *)
Fixpoint for_each {A} (xs : list A) (body : A -> M unit) : M unit :=
  match xs with
  | [] => ret tt
  | x :: xs' => body x;; for_each xs' body
  end.

(** *** Session state *)

Definition get_messages : M (list Message) := fun w =>
  match messages (session w) with
  | Some ms => (Ret ms, w)
  | None => (Raised (AttributeError "messages"), w)
  end.

Definition get_last_trained : M string := fun w =>
  match last_trained (session w) with
  | Some s => (Ret s, w)
  | None => (Raised (AttributeError "last_trained"), w)
  end.

Definition get_files_ingested : M nat := fun w =>
  match files_ingested (session w) with
  | Some n => (Ret n, w)
  | None => (Raised (AttributeError "files_ingested"), w)
  end.

Definition set_messages (ms : list Message) : M unit := fun w =>
  let s := session w in
  (Ret tt,
   with_log (log w ++ [SessionSet "messages"])
     (with_session {| messages := Some ms; last_trained := last_trained s;
                      files_ingested := files_ingested s |} w)).

Definition set_last_trained (v : string) : M unit := fun w =>
  let s := session w in
  (Ret tt,
   with_log (log w ++ [SessionSet "last_trained"])
     (with_session {| messages := messages s; last_trained := Some v;
                      files_ingested := files_ingested s |} w)).

Definition set_files_ingested (v : nat) : M unit := fun w =>
  let s := session w in
  (Ret tt,
   with_log (log w ++ [SessionSet "files_ingested"])
     (with_session {| messages := messages s;
                      last_trained := last_trained s;
                      files_ingested := Some v |} w)).

(** [st.session_state.messages.append(m)]: the list object is looked up
    and extended in place. *)
Definition messages_append (m : Message) : M unit := fun w =>
  let s := session w in
  match messages s with
  | Some ms =>
      (Ret tt,
       with_log (log w ++ [MessagesAppend m])
         (with_session {| messages := Some (ms ++ [m]);
                          last_trained := last_trained s;
                          files_ingested := files_ingested s |} w))
  | None => (Raised (AttributeError "messages"), w)
  end.

(** *** File system *)

(** [os.makedirs(dir, exist_ok=True)] *)
Definition makedirs (dir : string) : M unit := fun w =>
  (Ret tt, with_log (log w ++ [Makedirs dir]) (with_dirs ({[dir]} ∪ dirs w) w)).

(** [open(path, "w")]: the file is created or truncated. *)
Definition open_w (path : string) : M unit := fun w =>
  (Ret tt, with_log (log w ++ [FileOpenW path]) (with_fs (<[path := ""]> (fs w)) w)).

(** [f.write(data)] on a file opened for writing: appended at the end. *)
Definition file_write (path data : string) : M unit := fun w =>
  (Ret tt,
   with_log (log w ++ [FileWrite path data])
     (with_fs (<[path := default "" (fs w !! path) +:+ data]> (fs w)) w)).

(** *** Collaborators *)

(** What a collaborator call gives back: a value, or an exception. *)
Inductive Reply (A : Type) :=
  | Ok (a : A)
  | Err (e : Exn).
Global Arguments Ok {A} a.
Global Arguments Err {A} e.

(** The functions imported from [ragbase].  Each one may read and change
    the external state.  [ask_question] is an async generator; a stream
    that ends is the list of what it yielded and, when it ended by
    raising, the exception. *)
Record Ragbase := {
  upload_files : list UploadedFile -> Ext -> Reply FilePaths * Ext;
  ingest : FilePaths -> Ext -> Reply VectorStore * Ext;
  create_llm : Ext -> Reply LLM * Ext;
  create_retriever : LLM -> VectorStore -> Ext -> Reply Retriever * Ext;
  create_chain : LLM -> Retriever -> Ext -> Reply Chain * Ext;
  ask_question :
    Chain -> string -> string -> Ext ->
    (list StreamEvent * option Exn) * Ext;
  (* What a call of one of the five collaborators above does to the
     files and the directories ([upload_files] persists the uploads,
     [ingest] builds its index), whether it returns or raises.  The
     call is named by its log entry, which holds its arguments; the
     external state is the one before the call. *)
  file_effects :
    Effect -> Ext ->
    gmap string string * gset string -> gmap string string * gset string
}.

(** [datetime.now()] and the index drawn by [random.choice]. *)
Record PyRuntime := {
  datetime_now : Ext -> DateTime;
  random_index : Ext -> nat * Ext
}.

Context (rag : Ragbase) (py : PyRuntime) (cfg : Config).

(** The world once the call logged as [e] has been made and has had
    its effects on the files and the directories. *)
Definition called (e : Effect) (w : World) : World :=
  let disk := file_effects rag e (ext w) (fs w, dirs w) in
  with_dirs disk.2 (with_fs disk.1 (with_log (log w ++ [e]) w)).

(** A logged call of a collaborator that returns or raises. *)
Definition call {A} (e : Effect) (f : Ext -> Reply A * Ext) : M A := fun w =>
  let w1 := called e w in
  match f (ext w) with
  | (Ok a, x) => (Ret a, with_ext x w1)
  | (Err exn, x) => (Raised (CollaboratorError exn), with_ext x w1)
  end.

(** A logged call of [ask_question], run to the end of its stream. *)
Definition call_ask_question (chain : Chain) (question session_id : string)
    : M (list StreamEvent * option Exn) := fun w =>
  let '(stream, x) := ask_question rag chain question session_id (ext w) in
  (Ret stream,
   with_ext x
     (with_log (log w ++ [CallAskQuestion chain question session_id]) w)).

Definition now : M DateTime := fun w => (Ret (datetime_now py (ext w)), w).

(** [random.choice(LOADING_MESSAGES)] *)
Definition random_choice_loading_message : M string := fun w =>
  let '(i, x) := random_index py (ext w) in
  (Ret (nth (i mod length LOADING_MESSAGES) LOADING_MESSAGES ""),
   with_ext x w).

(** ** The functions of [app.py] *)

(** The body of [build_qa_chain], under its decorator. *)
Definition build_qa_chain_body (files : list UploadedFile) : M Chain :=
  makedirs (DATABASE_DIR cfg);;
  dt ← now;
  let last_trained := strftime dt in
  let files_ingested := length files in
  set_last_trained last_trained;;
  set_files_ingested files_ingested;;
  let f := path_join (DATABASE_DIR cfg) "training_info.txt" in
  open_w f;;
  file_write f ("Last Trained: " +:+ last_trained +:+ nl);;
  file_write f ("Files Ingested: " +:+ str_of_nat files_ingested +:+ nl);;
  file_paths ← call (CallUploadFiles files) (upload_files rag files);
  vector_store ← call (CallIngest file_paths) (ingest rag file_paths);
  llm ← call CallCreateLlm (create_llm rag);
  retriever ← call (CallCreateRetriever llm vector_store)
                   (create_retriever rag llm vector_store);
  call (CallCreateChain llm retriever) (create_chain rag llm retriever).

(** [@st.cache_resource]: the arguments are the key.  On a hit the
    stored object is returned and the body does not run; on a miss the
    body runs and its return value is stored.  Nothing is stored when
    the body raises. *)
Definition cache_resource (body : list UploadedFile -> M Chain)
    (files : list UploadedFile) : M Chain := fun w =>
  match cache w !! files with
  | Some cached => (Ret cached, w)
  | None =>
      match body files w with
      | (Ret value, w') =>
          (Ret value, with_cache (<[files := value]> (cache w')) w')
      | (Stopped, w') => (Stopped, w')
      | (Raised e, w') => (Raised e, w')
      end
  end.

Definition build_qa_chain : list UploadedFile -> M Chain :=
  cache_resource build_qa_chain_body.

(** The payload of a stream event, read where the type test passed. *)
Definition str_value (event : StreamEvent) : string :=
  match event with
  | EvStr s | EvStrSubclass s => s
  | _ => ""
  end.

Definition list_items (event : StreamEvent) : list Document :=
  match event with
  | EvList docs | EvListSubclass docs => docs
  | _ => []
  end.

(** The [async for] loop of [ask_chain], over the events of the stream.
    [full_response] and [documents] are the two local variables the
    loop updates. *)
Fixpoint ask_chain_loop (events : list StreamEvent)
    (full_response : string) (documents : list Document)
    : M (string * list Document) :=
  match events with
  | [] => mret (full_response, documents)
  | event :: events' =>
      full_response ←
        (if type_is_str event then
           let full_response := full_response +:+ str_value event in
           st (StPlaceholderMarkdown full_response);;
           mret full_response
         else mret full_response);
      let documents :=
        if type_is_list event then documents ++ list_items event
        else documents in
      ask_chain_loop events' full_response documents
  end.

(** [for i, doc in enumerate(documents)] with its expander. *)
Definition show_sources (documents : list Document) : M unit :=
  for_each (imap (fun i doc => (i, doc)) documents) (fun '(i, doc) =>
    st (StExpander ("Source #" +:+ str_of_nat (i + 1)));;
    st (StWriteText (page_content doc))).

Definition ask_chain (question : string) (chain : Chain) : M unit :=
  let full_response := "" in
  st (StChatMessage "assistant"
        (path_join (IMAGES_DIR cfg) "assistant-avatar.png"));;
  st StEmpty;;
  loading ← random_choice_loading_message;
  st (StPlaceholderStatus loading);;
  let documents := [] in
  stream ← call_ask_question chain question "session-id-42";
  '(full_response, documents) ←
    ask_chain_loop stream.1 full_response documents;
  match stream.2 with
  | Some exn => raise (CollaboratorError exn)
  | None => mret tt
  end;;
  (if SHOW_SOURCES cfg then show_sources documents else mret tt);;
  messages_append {| role := "assistant"; content := full_response |}.

(** [uploaded_files] is what [st.file_uploader] returned in this run. *)
Definition show_upload_documents
    (uploaded_files : option (list UploadedFile)) : M Chain :=
  st StEmpty;;
  st StContainer;;
  st (StTitle "Document Ingestion Portal 📁");;
  st (StHeader "VectorDB for VS-GPT 🆚🤖");;
  st (StSubheader "Upload your documents to create the knowledge base");;
  st (StFileUploader "Upload PDF files");;
  (if negb (truthy_files uploaded_files) then
     st (StWarning "Please upload PDF documents to continue!");;
     st_stop
   else mret tt);;
  st (StSpinner "Analyzing your document(s)...");;
  st StHolderEmpty;;
  chain ← build_qa_chain (default [] uploaded_files);
  mret chain.

Definition show_message_history : M unit :=
  ms ← get_messages;
  for_each ms (fun message =>
    let role := role message in
    let avatar_path :=
      if String.eqb role "assistant"
      then path_join (IMAGES_DIR cfg) "assistant-avatar.png"
      else path_join (IMAGES_DIR cfg) "user-avatar.png" in
    st (StChatMessage role avatar_path);;
    st (StMarkdown (content message))).

(** [prompt] is what [st.chat_input] returned in this run. *)
Definition show_chat_input (chain : Chain) (prompt : option string)
    : M unit :=
  st (StChatInput "Ask your question here");;
  if truthy_str prompt then
    let prompt := default "" prompt in
    messages_append {| role := "user"; content := prompt |};;
    st (StChatMessage "user" (path_join (IMAGES_DIR cfg) "user-avatar.png"));;
    st (StMarkdown prompt);;
    ask_chain prompt chain
  else mret tt.

(** The widget values of one run of the script. *)
Record Inputs := {
  uploaded_files : option (list UploadedFile);
  prompt : option string
}.

(** [if "messages" not in st.session_state: ...] *)
Definition init_messages : M unit := fun w =>
  match messages (session w) with
  | None => set_messages [greeting] w
  | Some _ => (Ret tt, w)
  end.

(** The conversation-limit guard at the top level of the script. *)
Definition limit_guard : M unit :=
  reached ←
    (if (0 <? CONVERSATION_MESSAGES_LIMIT cfg)%Z then
       ms ← get_messages;
       mret (CONVERSATION_MESSAGES_LIMIT cfg <=? Z.of_nat (length ms))%Z
     else mret false);
  if reached : bool then
    st (StWarning
          "You have reached the conversation limit. Refresh the page to start a new conversation.");;
    st_stop
  else mret tt.

(** One run of the script, top to bottom. *)
Definition script (inp : Inputs) : M unit :=
  st (StSetPageConfig "VectoScalar-GPT" "🆚");;
  st (StHtml emotion_cache_style);;
  st (StMarkdown hide_st_style);;
  init_messages;;
  limit_guard;;
  chain ← show_upload_documents (uploaded_files inp);
  st (StMarkdown "
                # :rainbow[VectoScalar-GPT] 🆚🤖
            ");;
  st StColumns;;
  st (StSuccess ("Version : " +:+ VERSION cfg));;
  last_trained ← get_last_trained;
  st (StInfo ("Last Trained : " +:+ last_trained));;
  files_ingested ← get_files_ingested;
  st (StWarning ("Files Ingested : " +:+ str_of_nat files_ingested));;
  show_message_history;;
  show_chat_input chain (prompt inp).

(** A session is a sequence of runs, each on the world the previous
    run left; an exception or [st.stop()] ends a run, not the session. *)
Fixpoint session_runs (runs : list Inputs) (w : World) : World :=
  match runs with
  | [] => w
  | inp :: runs' => session_runs runs' (script inp w).2
  end.

(** ** Observations on a world *)

(** The contents of [training_info.txt] in the database directory. *)
Definition training_info (w : World) : option string :=
  fs w !! path_join (DATABASE_DIR cfg) "training_info.txt".

(** The chat history; no message is stored before initialisation. *)
Definition history (w : World) : list Message :=
  default [] (messages (session w)).

(** The collaborators called in a stretch of the log, in order. *)
Definition collaborator_calls (l : list Effect) : list Collaborator :=
  omap collaborator_of l.

(** The arguments of the calls of [ask_question] in a stretch of the
    log: chain, question and session identifier. *)
Definition ask_question_calls (l : list Effect)
    : list (Chain * string * string) :=
  omap (fun e => match e with
                 | CallAskQuestion chain question session_id =>
                     Some (chain, question, session_id)
                 | _ => None
                 end) l.

(** What the message placeholder displayed, one entry per update. *)
Definition placeholder_markdowns (l : list Effect) : list string :=
  omap (fun e => match e with
                 | Render (StPlaceholderMarkdown body) => Some body
                 | _ => None
                 end) l.

(** The texts written inside source expanders. *)
Definition written_sources (l : list Effect) : list string :=
  omap (fun e => match e with
                 | Render (StWriteText body) => Some body
                 | _ => None
                 end) l.

(** The effects [build_qa_chain] performs before its first collaborator
    call, for a clock reading [dt] and [n] files. *)
Definition training_record (dt : DateTime) (n : nat) : list Effect :=
  let f := path_join (DATABASE_DIR cfg) "training_info.txt" in
  [ Makedirs (DATABASE_DIR cfg);
    SessionSet "last_trained";
    SessionSet "files_ingested";
    FileOpenW f;
    FileWrite f ("Last Trained: " +:+ strftime dt +:+ nl);
    FileWrite f ("Files Ingested: " +:+ str_of_nat n +:+ nl) ].

(** The two halves of [build_qa_chain_body], for reasoning about them
    apart: the world once the training information is recorded, and the
    collaborator calls that follow. *)
Definition training_recorded (files : list UploadedFile) (w : World)
    : World :=
  let dt := datetime_now py (ext w) in
  let f := path_join (DATABASE_DIR cfg) "training_info.txt" in
  with_log (log w ++ training_record dt (length files))
    (with_fs
       (<[f := ("Last Trained: " +:+ strftime dt +:+ nl)
               +:+ "Files Ingested: " +:+ str_of_nat (length files) +:+ nl]>
          (fs w))
       (with_session
          {| messages := messages (session w);
             last_trained := Some (strftime dt);
             files_ingested := Some (length files) |}
          (with_dirs ({[DATABASE_DIR cfg]} ∪ dirs w) w))).

Definition collaborator_pipeline (files : list UploadedFile) : M Chain :=
  file_paths ← call (CallUploadFiles files) (upload_files rag files);
  vector_store ← call (CallIngest file_paths) (ingest rag file_paths);
  llm ← call CallCreateLlm (create_llm rag);
  retriever ← call (CallCreateRetriever llm vector_store)
                   (create_retriever rag llm vector_store);
  call (CallCreateChain llm retriever) (create_chain rag llm retriever).

(** The order in which [build_qa_chain] calls its collaborators. *)
Definition pipeline_order : list Collaborator :=
  [UploadFiles; Ingest; CreateLlm; CreateRetriever; CreateChain].

(** The same collaborators, with every stream of [ask_question]
    stripped of the events that are neither exactly [str] nor exactly
    [list]. *)
Definition without_other_events : Ragbase :=
  {| upload_files := upload_files rag;
     ingest := ingest rag;
     create_llm := create_llm rag;
     create_retriever := create_retriever rag;
     create_chain := create_chain rag;
     ask_question chain question session_id x :=
       let '(yielded, end_of_stream, x') :=
         ask_question rag chain question session_id x in
       (filter (fun e => type_is_str e || type_is_list e) yielded,
        end_of_stream, x');
     file_effects := file_effects rag |}.

(** The same collaborators, with an [ask_question] that answers under
    every session identifier as [rag] does under [session_id]. *)
Definition answering_as_session (session_id : string) : Ragbase :=
  {| upload_files := upload_files rag;
     ingest := ingest rag;
     create_llm := create_llm rag;
     create_retriever := create_retriever rag;
     create_chain := create_chain rag;
     ask_question chain question _ x :=
       ask_question rag chain question session_id x;
     file_effects := file_effects rag |}.

(** No collaborator call changes [training_info.txt]. *)
Definition keeps_training_info : Prop :=
  forall e x files directories,
    is_collaborator_call e ->
    (file_effects rag e x (files, directories)).1
      !! path_join (DATABASE_DIR cfg) "training_info.txt"
    = files !! path_join (DATABASE_DIR cfg) "training_info.txt".

(** ** Relations between the world before and after a computation *)

(** [m] takes every world to one that stands in [R] to it, however it
    ends. *)
Definition steps (R : relation World) {A} (m : M A) : Prop :=
  forall w, R w (m w).2.

(** The chat history only grows, at its end. *)
Definition history_grows (w w' : World) : Prop :=
  history w `prefix_of` history w'.

(** The resource cache only gains entries. *)
Definition cache_grows (w w' : World) : Prop := cache w ⊆ cache w'.

(** The stored chat messages are as they were. *)
Definition messages_kept (w w' : World) : Prop :=
  messages (session w') = messages (session w).

(** Files, directories, cache and the two training attributes of the
    session state are as they were. *)
Definition training_state_kept (w w' : World) : Prop :=
  fs w' = fs w /\ dirs w' = dirs w /\ cache w' = cache w
  /\ last_trained (session w') = last_trained (session w)
  /\ files_ingested (session w') = files_ingested (session w).

(** Once the messages are stored, [m] keeps them stored and does not
    fail on reading them. *)
Definition messages_safe {A} (m : M A) : Prop :=
  forall w,
    is_Some (messages (session w)) ->
    is_Some (messages (session (m w).2))
    /\ (m w).1 <> Raised (AttributeError "messages").

(** The messages the conversation-limit guard counts: those stored, or
    the greeting that initialisation stores. *)
Definition stored_messages (w : World) : list Message :=
  default [greeting] (messages (session w)).

(** The limit is switched off or not reached yet. *)
Definition below_limit (w : World) : Prop :=
  (CONVERSATION_MESSAGES_LIMIT cfg <= 0
   \/ Z.of_nat (length (stored_messages w))
      < CONVERSATION_MESSAGES_LIMIT cfg)%Z.

(** What the script draws before it looks at the messages, and what it
    adds when it initialises them. *)
Definition page_setup : list Effect :=
  [ Render (StSetPageConfig "VectoScalar-GPT" "🆚");
    Render (StHtml emotion_cache_style);
    Render (StMarkdown hide_st_style) ].

Definition messages_setup (w : World) : list Effect :=
  match messages (session w) with
  | Some _ => []
  | None => [SessionSet "messages"]
  end.

(** The upload form of [show_upload_documents]. *)
Definition upload_form : list Effect :=
  [ Render StEmpty;
    Render StContainer;
    Render (StTitle "Document Ingestion Portal 📁");
    Render (StHeader "VectorDB for VS-GPT 🆚🤖");
    Render (StSubheader "Upload your documents to create the knowledge base");
    Render (StFileUploader "Upload PDF files") ].

(** The chat bubble [show_message_history] draws for one message. *)
Definition chat_bubble (m : Message) : list Effect :=
  [ Render (StChatMessage (role m)
              (if String.eqb (role m) "assistant"
               then path_join (IMAGES_DIR cfg) "assistant-avatar.png"
               else path_join (IMAGES_DIR cfg) "user-avatar.png"));
    Render (StMarkdown (content m)) ].

(** The labels of the expanders drawn in a stretch of the log. *)
Definition expander_labels (l : list Effect) : list string :=
  omap (fun e => match e with
                 | Render (StExpander label) => Some label
                 | _ => None
                 end) l.

(** What the loop of [ask_chain] and the source expanders add to the
    log. *)
Definition placeholder_updates (bodies : list string) : list Effect :=
  (fun body => Render (StPlaceholderMarkdown body)) <$> bodies.

Definition source_effects (documents : list Document) : list Effect :=
  flat_map
    (fun '(i, doc) =>
       [ Render (StExpander ("Source #" +:+ str_of_nat (i + 1)));
         Render (StWriteText (page_content doc)) ])
    (imap (fun i doc => (i, doc)) documents).

End App.

(** ** Stream contents, as the properties name them *)

(** The events of a stream whose type is [str], in stream order. *)
Definition text_fragments (events : list StreamEvent) : list string :=
  omap (fun e => match e with EvStr s => Some s | _ => None end) events.

(** The events of a stream whose type is [list], in stream order. *)
Definition document_lists (events : list StreamEvent)
    : list (list Document) :=
  omap (fun e => match e with EvList docs => Some docs | _ => None end) events.

(** Concatenation of strings, left to right. *)
Definition join (l : list string) : string := foldr String.append "" l.

(** The text received so far after each fragment, starting from
    [so_far]. *)
Fixpoint running_joins (so_far : string) (fragments : list string)
    : list string :=
  match fragments with
  | [] => []
  | s :: fragments' => (so_far +:+ s) :: running_joins (so_far +:+ s) fragments'
  end.

(** ** Reading the training-info file back *)

Definition is_newline (c : Ascii.ascii) : bool :=
  Ascii.eqb c (Ascii.ascii_of_nat 10).

(** The lines of a text, each without its terminating newline, as
    [str.splitlines] gives them for a text whose only line break is
    [\n]. *)
Fixpoint split_lines (s : string) : list string :=
  match s with
  | EmptyString => []
  | String c s' =>
      if is_newline c then "" :: split_lines s'
      else match split_lines s' with
           | [] => [String c ""]
           | l :: ls => String c l :: ls
           end
  end.

Fixpoint no_newline (s : string) : bool :=
  match s with
  | EmptyString => true
  | String c s' => negb (is_newline c) && no_newline s'
  end.

(** ** A concrete deployment

    Collaborators small enough to run: handles are numbers and strings,
    the external state is a counter that every call advances and that the
    clock shows as seconds. *)
Module Demo.

(** What [rag] streams for any question. *)
Definition answer : list StreamEvent :=
  [ EvStr "Hel"; EvOther; EvList [ {| page_content := "page 1" |} ];
    EvStrSubclass "zzz"; EvStr "lo";
    EvListSubclass [ {| page_content := "page 9" |} ];
    EvList [ {| page_content := "page 2" |} ] ].

Definition rag
  : @Ragbase (list string) nat string nat nat string nat := {|
  upload_files files x := (Ok (file_name <$> files), S x);
  ingest file_paths x := (Ok (length file_paths), S x);
  create_llm x := (Ok "llm", S x);
  create_retriever llm vector_store x := (Ok (vector_store + 100), S x);
  create_chain llm retriever x := (Ok (retriever + x), S x);
  ask_question chain question session_id x := (answer, None, S x);
  file_effects e x disk :=
    match e with
    | CallUploadFiles files =>
        (foldr (fun f files' =>
                  <[path_join "docs" (file_name f) := file_data f]> files')
               disk.1 files,
         {["docs"]} ∪ disk.2)
    | CallIngest _ => (<[path_join "db" "index" := "vectors"]> disk.1, disk.2)
    | _ => disk
    end
|}.

(** The same deployment with a vector database that cannot be reached. *)
Definition rag_ingest_fails
  : @Ragbase (list string) nat string nat nat string nat := {|
  upload_files := upload_files rag;
  ingest file_paths x := (Err "qdrant unreachable", S x);
  create_llm := create_llm rag;
  create_retriever := create_retriever rag;
  create_chain := create_chain rag;
  ask_question := ask_question rag;
  file_effects := file_effects rag
|}.

(** The same deployment with a model that breaks off after the first
    fragment of its answer. *)
Definition rag_stream_fails
  : @Ragbase (list string) nat string nat nat string nat := {|
  upload_files := upload_files rag;
  ingest := ingest rag;
  create_llm := create_llm rag;
  create_retriever := create_retriever rag;
  create_chain := create_chain rag;
  ask_question chain question session_id x :=
    ([EvStr "Hel"], Some "connection reset", S x);
  file_effects := file_effects rag
|}.

Definition py : @PyRuntime nat := {|
  datetime_now x :=
    {| year := 2024; month := 7; day := 3;
       hour := 9; minute := 41; second := x |};
  random_index x := (x, S x)
|}.

Definition cfg (limit : Z) : Config := {|
  DATABASE_DIR := "db";
  IMAGES_DIR := "images";
  CONVERSATION_MESSAGES_LIMIT := limit;
  SHOW_SOURCES := true;
  VERSION := "1.0"
|}.

(** A fresh server process and a fresh browser session. *)
Definition w0 : @World (list string) nat string nat nat nat :=
  {| session := empty_session; fs := ∅; dirs := ∅; cache := ∅;
     log := []; ext := 0 |}.

(** The session once the greeting is stored. *)
Definition w_greeted : @World (list string) nat string nat nat nat :=
  {| session := {| messages := Some [greeting]; last_trained := None;
                   files_ingested := None |};
     fs := ∅; dirs := ∅; cache := ∅; log := []; ext := 0 |}.

Definition fileA : UploadedFile :=
  {| file_name := "a.pdf"; file_position := 0; file_data := "AAAA" |}.
Definition fileB : UploadedFile :=
  {| file_name := "b.pdf"; file_position := 0; file_data := "BB" |}.
Definition fileC : UploadedFile :=
  {| file_name := "c.pdf"; file_position := 0; file_data := "C" |}.

(** The user uploads [fileA]; the chain is built and cached. *)
Definition w_after_A : World :=
  (build_qa_chain rag py (cfg 0) [fileA] w0).2.

(** The user then replaces the upload by [fileB] and [fileC]. *)
Definition w_after_A_then_BC : World :=
  (build_qa_chain rag py (cfg 0) [fileB; fileC] w_after_A).2.

(** A second browser session on the server that built the chain for
    [fileA]: the cache is shared, the session state is fresh. *)
Definition w_second_session : World :=
  with_session empty_session w_after_A.

End Demo.

(** * Properties *)

Example split_lines_two : split_lines ("ab" +:+ nl +:+ "c" +:+ nl) = ["ab"; "c"].
Proof. reflexivity. Qed.

Example split_lines_blank : split_lines ("a" +:+ nl +:+ nl +:+ "b") = ["a"; ""; "b"].
Proof. reflexivity. Qed.

Lemma no_newline_app s t :
  no_newline (s +:+ t) = no_newline s && no_newline t.
Proof.
  induction s as [|c s IH]; simpl; [done|].
  rewrite IH. by rewrite andb_assoc.
Qed.

Lemma split_lines_line s rest :
  no_newline s = true ->
  split_lines (s +:+ nl +:+ rest) = s :: split_lines rest.
Proof.
  induction s as [|c s IH]; simpl; intros H; [done|].
  apply andb_prop in H as [Hc Hs].
  apply negb_true_iff in Hc. rewrite Hc.
  by rewrite (IH Hs).
Qed.

Lemma no_newline_uint d : no_newline (NilEmpty.string_of_uint d) = true.
Proof. induction d; simpl; auto. Qed.

Lemma no_newline_str_of_nat n : no_newline (str_of_nat n) = true.
Proof.
  unfold str_of_nat, NilZero.string_of_uint.
  destruct (Nat.to_uint n) eqn:E; try done; apply (no_newline_uint (_ _)).
Qed.

Lemma no_newline_pad2 n : no_newline (pad2 n) = true.
Proof.
  unfold pad2. destruct (Nat.ltb n 10); simpl; apply no_newline_str_of_nat.
Qed.

Lemma no_newline_strftime dt : no_newline (strftime dt) = true.
Proof.
  unfold strftime.
  repeat (rewrite no_newline_app; apply andb_true_intro; split);
    first [apply no_newline_str_of_nat | apply no_newline_pad2 | done].
Qed.

Example strftime_sample :
  strftime {| year := 2024; month := 7; day := 3;
              hour := 9; minute := 41; second := 5 |}
  = "2024-07-03 09:41:05".
Proof. reflexivity. Qed.

(** ** Running the script monad *)

Section Proofs.

Context {FilePaths VectorStore LLM Retriever Chain Exn Ext : Type}.
Context (rag : @Ragbase FilePaths VectorStore LLM Retriever Chain Exn Ext).
Context (py : @PyRuntime Ext) (cfg : Config).

Local Abbreviation World := (@World FilePaths VectorStore LLM Retriever Chain Ext).
Local Abbreviation M := (@M FilePaths VectorStore LLM Retriever Chain Exn Ext).
Local Abbreviation Effect :=
  (@Effect FilePaths VectorStore LLM Retriever Chain).
Local Abbreviation placeholder_updates :=
  (@placeholder_updates FilePaths VectorStore LLM Retriever Chain).
Local Abbreviation source_effects :=
  (@source_effects FilePaths VectorStore LLM Retriever Chain).
Local Abbreviation steps :=
  (@steps FilePaths VectorStore LLM Retriever Chain Exn Ext).
Local Abbreviation history_grows :=
  (@history_grows FilePaths VectorStore LLM Retriever Chain Ext).

Create HintDb prims.

Lemma bind_run {A B} (m : M A) (k : A -> M B) (w : World) :
  (m ≫= k) w =
  match m w with
  | (Ret a, w') => k a w'
  | (Stopped, w') => (Stopped, w')
  | (Raised e, w') => (Raised e, w')
  end.
Proof. reflexivity. Qed.

(** *** Relations that every step of a computation respects *)

Section Steps.

Context (R : relation World) `{!PreOrder R}.

Lemma steps_ret {A} (a : A) : steps R (mret a : M A).
Proof. intros w. reflexivity. Qed.

Lemma steps_raise {A} e : steps R (raise e : M A).
Proof. intros w. reflexivity. Qed.

Lemma steps_bind {A B} (m : M A) (k : A -> M B) :
  steps R m -> (forall a, steps R (k a)) -> steps R (m ≫= k).
Proof.
  intros Hm Hk w. rewrite bind_run.
  specialize (Hm w). destruct (m w) as [[a| |e] w']; simpl in *; try done.
  etrans; [exact Hm|apply Hk].
Qed.

Lemma steps_for_each {A} (xs : list A) (body : A -> M unit) :
  (forall x, steps R (body x)) -> steps R (for_each xs body).
Proof.
  intros Hbody. induction xs as [|x xs IH]; simpl.
  - apply steps_ret.
  - apply steps_bind; auto.
Qed.

Lemma steps_cache_resource (body : list UploadedFile -> M Chain) files :
  (forall w c, R w (with_cache c w)) ->
  steps R (body files) -> steps R (cache_resource body files).
Proof.
  intros Hc Hb w. unfold cache_resource.
  destruct (cache w !! files); [reflexivity|].
  specialize (Hb w). destruct (body files w) as [[a| |e] w']; simpl in *; try done.
  etrans; [exact Hb|apply Hc].
Qed.

End Steps.

Global Instance history_grows_preorder :
  PreOrder history_grows.
Proof.
  split.
  - intros w. unfold history_grows. reflexivity.
  - intros w1 w2 w3 H1 H2. unfold history_grows in *. by etrans.
Qed.


Hint Unfold emit st st_stop raise get_messages get_last_trained
  get_files_ingested set_messages set_last_trained set_files_ingested
  makedirs open_w file_write call call_ask_question now
  random_choice_loading_message : prims.

(** Splits a goal [steps R m] along the structure of [m], down to the
    primitive operations. *)
Ltac preorder := try match goal with |- PreOrder _ => apply _ end.

Ltac steps_split :=
  repeat match goal with
    | |- steps _ (mret _) => apply steps_ret; preorder
    | |- steps _ (raise _) => apply steps_raise; preorder
    | |- steps _ (mbind _ _) => apply steps_bind; preorder; [|intros ?]
    | |- steps _ (for_each _ _) => apply steps_for_each; preorder; intros ?
    | |- steps _ (if ?b then _ else _) => destruct b
    | |- steps _ (match ?x with _ => _ end) => destruct x
    | |- steps _ (let _ := _ in _) => progress cbv zeta
    | |- steps _ ((fun _ => _) _) => progress cbv beta
    end.

Ltac history_prim :=
  let w := fresh "w" in
  intros w; unfold history_grows, history; autounfold with prims;
  repeat match goal with
         | |- context [match ?x with _ => _ end] => destruct x eqn:?
         end; simpl;
  repeat match goal with
         | H : messages _ = _ |- _ => rewrite H
         end; simpl; try reflexivity.

Lemma history_ask_chain_loop events full_response documents :
  steps history_grows (ask_chain_loop events full_response documents).
Proof.
  revert full_response documents.
  induction events as [|event events IH]; intros; simpl.
  - apply steps_ret; apply _.
  - steps_split; try apply IH; history_prim.
Qed.

Lemma history_messages_append m : steps history_grows (messages_append m).
Proof.
  intros w. unfold history_grows, history, messages_append.
  destruct (messages (session w)) as [ms|] eqn:E; simpl; rewrite ?E; simpl.
  - by apply prefix_app_r.
  - done.
Qed.

Lemma history_ask_chain question chain :
  steps history_grows (ask_chain rag py cfg question chain).
Proof.
  unfold ask_chain, show_sources.
  steps_split;
    first [ apply history_ask_chain_loop | apply history_messages_append
          | history_prim ].
Qed.

Lemma history_build_qa_chain files :
  steps history_grows (build_qa_chain rag py cfg files).
Proof.
  unfold build_qa_chain. apply steps_cache_resource; [apply _|by intros; unfold history_grows|].
  unfold build_qa_chain_body. steps_split; history_prim.
Qed.

Lemma history_show_upload_documents uploaded_files :
  steps history_grows (show_upload_documents rag py cfg uploaded_files).
Proof.
  unfold show_upload_documents.
  steps_split; first [apply history_build_qa_chain | history_prim].
Qed.

Lemma history_show_chat_input chain prompt :
  steps history_grows (show_chat_input rag py cfg chain prompt).
Proof.
  unfold show_chat_input.
  steps_split;
    first [ apply history_ask_chain | apply history_messages_append
          | history_prim ].
Qed.

Lemma history_init_messages : steps history_grows init_messages.
Proof.
  intros w. unfold history_grows, history, init_messages.
  destruct (messages (session w)) as [ms|] eqn:E; simpl; rewrite ?E; simpl.
  - done.
  - apply prefix_nil.
Qed.

Lemma history_script inp : steps history_grows (script rag py cfg inp).
Proof.
  unfold script, limit_guard, show_message_history.
  steps_split;
    first [ apply history_init_messages
          | apply history_show_upload_documents
          | apply history_show_chat_input
          | history_prim ].
Qed.

Lemma history_session_runs runs w :
  history_grows w (session_runs rag py cfg runs w).
Proof.
  revert w. induction runs as [|inp runs IH]; intros w; simpl.
  - reflexivity.
  - etrans; [apply (history_script inp w)|apply IH].
Qed.

Lemma session_runs_app runs1 runs2 w :
  session_runs rag py cfg (runs1 ++ runs2) w
  = session_runs rag py cfg runs2 (session_runs rag py cfg runs1 w).
Proof. revert w. induction runs1; intros; simpl; auto. Qed.

(** C7: the chat history is append-only.  Initialisation, submitting a
    question, receiving an answer and a whole run of the script each
    leave the history as it is or extend it at its end; over a session,
    the history after any number of runs is a prefix of the history
    after any further runs. *)
Theorem messages_append_only :
  (forall w : World, history w `prefix_of` history (init_messages (Exn:=Exn) w).2)
  /\ (forall chain prompt w,
        history w
        `prefix_of` history (show_chat_input rag py cfg chain prompt w).2)
  /\ (forall question chain w,
        history w
        `prefix_of` history (ask_chain rag py cfg question chain w).2)
  /\ (forall inp w, history w `prefix_of` history (script rag py cfg inp w).2)
  /\ (forall runs1 runs2 w,
        history (session_runs rag py cfg runs1 w)
        `prefix_of` history (session_runs rag py cfg (runs1 ++ runs2) w)).
Proof.
  repeat split.
  - apply history_init_messages.
  - intros. apply history_show_chat_input.
  - intros. apply history_ask_chain.
  - intros. apply history_script.
  - intros. rewrite session_runs_app. apply history_session_runs.
Qed.

(** *** What [ask_chain] does, effect by effect *)

Lemma with_log_same (w : World) : with_log (log w) w = w.
Proof. by destruct w. Qed.

Lemma append_assoc (a b c : string) : (a +:+ b) +:+ c = a +:+ b +:+ c.
Proof.
  induction a as [|x a IH]; [done|].
  change (String x ((a +:+ b) +:+ c) = String x (a +:+ b +:+ c)).
  by f_equal.
Qed.

Lemma append_empty_r (a : string) : a +:+ "" = a.
Proof.
  induction a as [|x a IH]; [done|].
  change (String x (a +:+ "") = String x a). by f_equal.
Qed.

Lemma st_run c (w : World) :
  st (Exn := Exn) c w = (Ret tt, with_log (log w ++ [Render c]) w).
Proof. reflexivity. Qed.

Ltac world_simpl :=
  cbn [log ext session fs dirs cache fst snd called
       with_log with_ext with_session with_fs with_dirs with_cache].

Lemma ask_chain_loop_run events full_response documents (w : World) :
  ask_chain_loop (Exn := Exn) events full_response documents w =
  (Ret (full_response +:+ join (text_fragments events),
        documents ++ concat (document_lists events)),
   with_log
     (log w
      ++ placeholder_updates
           (running_joins full_response (text_fragments events)))
     w).
Proof.
  revert full_response documents w.
  induction events as [|event events IH]; intros full_response documents w.
  - simpl. unfold placeholder_updates. simpl.
    by rewrite append_empty_r, !app_nil_r, with_log_same.
  - destruct event; simpl; rewrite bind_run; simpl; rewrite IH; simpl;
      rewrite ?append_assoc, <- ?(assoc_L (++)); reflexivity.
Qed.

Lemma for_each_logs {A} (f : A -> list Effect) (body : A -> M unit) xs
    (w : World) :
  (forall x w, body x w = (Ret tt, with_log (log w ++ f x) w)) ->
  for_each xs body w = (Ret tt, with_log (log w ++ flat_map f xs) w).
Proof.
  intros Hbody. revert w. induction xs as [|x xs IH]; intros w; simpl.
  - by rewrite app_nil_r, with_log_same.
  - rewrite bind_run, Hbody, IH. simpl. by rewrite <- (assoc_L (++)).
Qed.

Lemma show_sources_run documents (w : World) :
  show_sources (Exn := Exn) documents w =
  (Ret tt, with_log (log w ++ source_effects documents) w).
Proof.
  unfold show_sources, source_effects.
  apply for_each_logs. intros [i doc] w'.
  rewrite bind_run. unfold st, emit. simpl. by rewrite <- (assoc_L (++)).
Qed.

(** The whole of [ask_chain] in one equation. *)
Lemma ask_chain_run
    (r : @Ragbase FilePaths VectorStore LLM Retriever Chain Exn Ext)
    question chain (w : World) :
  let '(i, x1) := random_index py (ext w) in
  let '(events, end_of_stream, x2) :=
    ask_question r chain question "session-id-42" x1 in
  let w1 :=
    with_ext x2
      (with_log
         (log w
          ++ [ Render (StChatMessage "assistant"
                         (path_join (IMAGES_DIR cfg) "assistant-avatar.png"));
               Render StEmpty;
               Render (StPlaceholderStatus
                         (nth (i mod length LOADING_MESSAGES)
                              LOADING_MESSAGES ""));
               CallAskQuestion chain question "session-id-42" ]
          ++ placeholder_updates (running_joins "" (text_fragments events)))
         w) in
  let documents := concat (document_lists events) in
  ask_chain r py cfg question chain w =
  match end_of_stream with
  | Some exn => (Raised (CollaboratorError exn), w1)
  | None =>
      messages_append
        {| role := "assistant"; content := join (text_fragments events) |}
        (if SHOW_SOURCES cfg
         then with_log (log w1 ++ source_effects documents) w1
         else w1)
  end.
Proof.
  destruct (random_index py (ext w)) as [i x1] eqn:Hrandom.
  destruct (ask_question r chain question "session-id-42" x1)
    as [[events end_of_stream] x2] eqn:Hask.
  set (loading := nth _ _ _).
  unfold ask_chain.
  do 2 (rewrite bind_run, st_run; world_simpl).
  rewrite bind_run. unfold random_choice_loading_message at 1.
  world_simpl. rewrite Hrandom. fold loading.
  rewrite bind_run, st_run; world_simpl.
  rewrite bind_run. unfold call_ask_question at 1.
  world_simpl. rewrite Hask.
  rewrite bind_run, ask_chain_loop_run. world_simpl.
  rewrite <- !(assoc_L (++)). simpl app.
  rewrite bind_run.
  destruct end_of_stream as [exn|]; [reflexivity|].
  unfold mret, M_ret, ret. rewrite bind_run.
  destruct (SHOW_SOURCES cfg); [|reflexivity].
  rewrite show_sources_run. world_simpl.
  rewrite <- !(assoc_L (++)). reflexivity.
Qed.

(** *** Reading the log of [ask_chain] *)

Lemma omap_flat_map_nil {A B C} (f : B -> option C) (g : A -> list B) xs :
  (forall x, omap f (g x) = []) -> omap f (flat_map g xs) = [].
Proof.
  intros Hg. induction xs as [|x xs IH]; simpl; [done|].
  by rewrite omap_app, Hg, IH.
Qed.

Lemma placeholder_markdowns_updates bodies :
  placeholder_markdowns (placeholder_updates bodies) = bodies.
Proof.
  unfold placeholder_markdowns, placeholder_updates.
  induction bodies as [|b bodies IH]; simpl; [done|by f_equal].
Qed.

Lemma placeholder_markdowns_sources documents :
  placeholder_markdowns (source_effects documents) = [].
Proof.
  unfold placeholder_markdowns, source_effects.
  apply omap_flat_map_nil. by intros [i doc].
Qed.

Lemma written_sources_updates bodies :
  written_sources (placeholder_updates bodies) = [].
Proof.
  unfold written_sources, placeholder_updates.
  induction bodies as [|b bodies IH]; simpl; done.
Qed.

Lemma written_sources_flat_map (l : list (nat * Document)) :
  written_sources
    (flat_map
       (fun '(i, doc) =>
          [ Render (StExpander ("Source #" +:+ str_of_nat (i + 1)));
            Render (StWriteText (page_content doc)) ]) l : list Effect)
  = (fun p => page_content p.2) <$> l.
Proof.
  unfold written_sources.
  induction l as [|[i doc] l IH]; simpl; [done|by f_equal].
Qed.

Lemma written_sources_sources documents :
  written_sources (source_effects documents) = page_content <$> documents.
Proof.
  unfold source_effects. rewrite written_sources_flat_map.
  rewrite fmap_imap.
  change (imap (fun (_ : nat) (doc : Document) => page_content doc) documents
          = page_content <$> documents).
  induction documents as [|doc documents IH]; simpl; [done|by f_equal].
Qed.

Lemma ask_question_calls_updates bodies :
  ask_question_calls (placeholder_updates bodies) = [].
Proof.
  unfold ask_question_calls, placeholder_updates.
  induction bodies as [|b bodies IH]; simpl; done.
Qed.

Lemma ask_question_calls_sources documents :
  ask_question_calls (source_effects documents) = [].
Proof.
  unfold ask_question_calls, source_effects.
  apply omap_flat_map_nil. by intros [i doc].
Qed.

Lemma last_running_joins so_far fragments :
  fragments <> [] ->
  last (running_joins so_far fragments) = Some (so_far +:+ join fragments).
Proof.
  revert so_far. induction fragments as [|s fragments IH]; [done|].
  intros so_far _. destruct fragments as [|s' fragments].
  - simpl. by rewrite append_empty_r.
  - change (last (running_joins (so_far +:+ s) (s' :: fragments))
            = Some (so_far +:+ s +:+ join (s' :: fragments))).
    rewrite IH by done. by rewrite append_assoc.
Qed.

(** *** The answer of [ask_chain] *)

(** C4: for every finite stream that [ask_question] yields, the full
    response of [ask_chain] is the concatenation, in stream order, of
    exactly the events whose type is [str].  That string is appended to
    the message history as the assistant message; the placeholder shows
    the text received so far after each fragment and, at the end, the
    full response. *)
Theorem ask_chain_full_response question chain (w : World) ms events x2 :
  messages (session w) = Some ms ->
  ask_question rag chain question "session-id-42"
    (random_index py (ext w)).2 = (events, None, x2) ->
  let full_response := join (text_fragments events) in
  let result := ask_chain rag py cfg question chain w in
  result.1 = Ret tt
  /\ messages (session result.2)
     = Some (ms ++ [ {| role := "assistant"; content := full_response |} ])
  /\ placeholder_markdowns (log result.2)
     = placeholder_markdowns (log w)
       ++ running_joins "" (text_fragments events)
  /\ match text_fragments events with
     | [] => True
     | _ :: _ =>
         last (placeholder_markdowns (log result.2)) = Some full_response
     end.
Proof.
  intros Hms Hask full_response result.
  pose proof (ask_chain_run rag question chain w) as Hrun.
  destruct (random_index py (ext w)) as [i x1]. simpl in Hask.
  rewrite Hask in Hrun. fold result in Hrun.
  assert (Hlog : placeholder_markdowns (log result.2)
                 = placeholder_markdowns (log w)
                   ++ running_joins "" (text_fragments events)).
  { rewrite Hrun. unfold messages_append.
    destruct (SHOW_SOURCES cfg); world_simpl; rewrite Hms; world_simpl;
      unfold placeholder_markdowns;
      rewrite !omap_app; simpl;
      fold (placeholder_markdowns (placeholder_updates
              (running_joins "" (text_fragments events))));
      fold (placeholder_markdowns (source_effects
              (concat (document_lists events))));
      rewrite placeholder_markdowns_updates,
        ?placeholder_markdowns_sources, ?app_nil_r; reflexivity. }
  repeat split.
  - rewrite Hrun. unfold messages_append.
    by destruct (SHOW_SOURCES cfg); world_simpl; rewrite Hms.
  - rewrite Hrun. unfold messages_append.
    by destruct (SHOW_SOURCES cfg); world_simpl; rewrite Hms.
  - exact Hlog.
  - destruct (text_fragments events) as [|s fragments] eqn:Hfr; [done|].
    rewrite Hlog.
    assert (Hne : s :: fragments <> []) by done.
    pose proof (last_running_joins "" _ Hne) as Hlast.
    destruct (running_joins "" (s :: fragments)) as [|b bs] eqn:E;
      [done|].
    rewrite last_app, Hlast. subst full_response. by rewrite ?Hfr.
Qed.

(** C5: for every finite stream that [ask_question] yields, the
    documents [ask_chain] gathers are the concatenation, in stream
    order, of the elements of exactly the events whose type is [list]:
    this is the value of [documents] when the loop ends, and what the
    source expanders then write when [SHOW_SOURCES] is set. *)
Theorem ask_chain_documents question chain (w : World) events x2 :
  ask_question rag chain question "session-id-42"
    (random_index py (ext w)).2 = (events, None, x2) ->
  (forall w0 : World,
      (ask_chain_loop (Exn := Exn) events "" [] w0).1
      = Ret (join (text_fragments events), concat (document_lists events)))
  /\ written_sources (log (ask_chain rag py cfg question chain w).2)
     = written_sources (log w)
       ++ (if SHOW_SOURCES cfg
           then page_content <$> concat (document_lists events)
           else []).
Proof.
  intros Hask. split.
  - intros w0. by rewrite ask_chain_loop_run.
  - pose proof (ask_chain_run rag question chain w) as Hrun.
    destruct (random_index py (ext w)) as [i x1]. simpl in Hask.
    rewrite Hask in Hrun. rewrite Hrun. unfold messages_append.
    destruct (SHOW_SOURCES cfg); world_simpl;
      destruct (messages (session w)); world_simpl;
      unfold written_sources;
      rewrite !omap_app; simpl;
      fold (written_sources (placeholder_updates
              (running_joins "" (text_fragments events))));
      fold (written_sources (source_effects
              (concat (document_lists events))));
      rewrite written_sources_updates, ?written_sources_sources,
        ?app_nil_r; reflexivity.
Qed.

(** C9: every call of [ask_question] that [ask_chain] makes passes the
    constant session identifier ["session-id-42"], whatever the question
    and the session state.  [ask_chain] logs exactly one call, with the
    chain and the question it was given and that identifier; the
    collaborator receives these very arguments, since the stream that
    [ask_chain] consumes and the external state it leaves are those of
    [ask_question] applied to them; and how the collaborator answers
    under any other identifier does not matter.  So the identifier is
    the same for any two questions. *)
Theorem ask_chain_session_id :
  (forall question chain (w : World),
      ask_question_calls (log (ask_chain rag py cfg question chain w).2)
      = ask_question_calls (log w) ++ [(chain, question, "session-id-42")])
  /\ (forall question chain (w : World),
        let '(events, end_of_stream, x2) :=
          ask_question rag chain question "session-id-42"
            (random_index py (ext w)).2 in
        let r := ask_chain rag py cfg question chain w in
        ext r.2 = x2
        /\ placeholder_markdowns (log r.2)
           = placeholder_markdowns (log w)
             ++ running_joins "" (text_fragments events)
        /\ r.1 = match end_of_stream, messages (session w) with
                 | Some exn, _ => Raised (CollaboratorError exn)
                 | None, Some _ => Ret tt
                 | None, None => Raised (AttributeError "messages")
                 end)
  /\ (forall question chain (w : World),
        ask_chain (answering_as_session rag "session-id-42") py cfg
          question chain w
        = ask_chain rag py cfg question chain w)
  /\ (forall question1 chain1 (w1 : World) question2 chain2 (w2 : World),
        snd <$> last (ask_question_calls
                        (log (ask_chain rag py cfg question1 chain1 w1).2))
        = snd <$> last (ask_question_calls
                          (log (ask_chain rag py cfg question2 chain2 w2).2))).
Proof.
  assert (Hcall : forall question chain (w : World),
    ask_question_calls (log (ask_chain rag py cfg question chain w).2)
    = ask_question_calls (log w) ++ [(chain, question, "session-id-42")]).
  { intros question chain w.
    pose proof (ask_chain_run rag question chain w) as Hrun.
    destruct (random_index py (ext w)) as [i x1].
    destruct (ask_question rag chain question "session-id-42" x1)
      as [[events end_of_stream] x2].
    rewrite Hrun. unfold messages_append.
    destruct end_of_stream as [exn|]; [|destruct (SHOW_SOURCES cfg)];
      world_simpl; try destruct (messages (session w)); world_simpl;
      unfold ask_question_calls;
      rewrite !omap_app; simpl;
      fold (ask_question_calls (placeholder_updates
              (running_joins "" (text_fragments events))));
      fold (ask_question_calls (source_effects
              (concat (document_lists events))));
      rewrite ask_question_calls_updates, ?ask_question_calls_sources,
        ?app_nil_r; reflexivity. }
  split_and!.
  - exact Hcall.
  - intros question chain w.
    pose proof (ask_chain_run rag question chain w) as Hrun.
    destruct (random_index py (ext w)) as [i x1]. simpl.
    destruct (ask_question rag chain question "session-id-42" x1)
      as [[events end_of_stream] x2].
    cbv zeta. rewrite Hrun. unfold messages_append.
    destruct end_of_stream as [exn|]; [|destruct (SHOW_SOURCES cfg)];
      world_simpl; try destruct (messages (session w)); world_simpl;
      (split_and!; [reflexivity| |reflexivity]);
      unfold placeholder_markdowns;
      rewrite !omap_app; simpl;
      fold (placeholder_markdowns (placeholder_updates
              (running_joins "" (text_fragments events))));
      fold (placeholder_markdowns (source_effects
              (concat (document_lists events))));
      rewrite placeholder_markdowns_updates,
        ?placeholder_markdowns_sources, ?app_nil_r; reflexivity.
  - intros question chain w.
    pose proof (ask_chain_run rag question chain w) as Hrun.
    pose proof (ask_chain_run (answering_as_session rag "session-id-42")
                  question chain w) as Hrun'.
    destruct (random_index py (ext w)) as [i x1].
    simpl in Hrun'.
    destruct (ask_question rag chain question "session-id-42" x1)
      as [[events end_of_stream] x2].
    by rewrite Hrun, Hrun'.
  - intros question1 chain1 w1 question2 chain2 w2.
    by rewrite !Hcall, !last_snoc.
Qed.

(** *** Events that are neither [str] nor [list] *)

Lemma text_fragments_filter events :
  text_fragments (filter (fun e => type_is_str e || type_is_list e) events)
  = text_fragments events.
Proof.
  unfold text_fragments.
  induction events as [|[] events IH]; simpl;
    first [done | exact IH | by f_equal].
Qed.

Lemma document_lists_filter events :
  document_lists (filter (fun e => type_is_str e || type_is_list e) events)
  = document_lists events.
Proof.
  unfold document_lists.
  induction events as [|[] events IH]; simpl;
    first [done | exact IH | by f_equal].
Qed.

(** C10: stream events whose type is neither exactly [str] nor exactly
    [list], instances of their subclasses included, change neither the
    accumulated response nor the collected documents: the loop gives
    the same result on a stream and on that stream with all such events
    removed, and so does the whole of [ask_chain]. *)
Theorem ask_chain_ignores_other_events :
  (forall events full_response documents (w : World),
      ask_chain_loop (Exn := Exn)
        (filter (fun e => type_is_str e || type_is_list e) events)
        full_response documents w
      = ask_chain_loop events full_response documents w)
  /\ (forall question chain (w : World),
        ask_chain (without_other_events rag) py cfg question chain w
        = ask_chain rag py cfg question chain w).
Proof.
  split.
  - intros. rewrite !ask_chain_loop_run.
    by rewrite text_fragments_filter, document_lists_filter.
  - intros question chain w.
    pose proof (ask_chain_run rag question chain w) as Hrun.
    pose proof (ask_chain_run (without_other_events rag) question chain w)
      as Hrun'.
    destruct (random_index py (ext w)) as [i x1].
    simpl in Hrun'.
    destruct (ask_question rag chain question "session-id-42" x1)
      as [[events end_of_stream] x2].
    rewrite Hrun, Hrun'.
    by rewrite text_fragments_filter, document_lists_filter.
Qed.

(** *** [build_qa_chain] *)

Lemma build_qa_chain_body_halves files (w : World) :
  build_qa_chain_body rag py cfg files w
  = collaborator_pipeline rag files (training_recorded py cfg files w).
Proof.
  unfold build_qa_chain_body.
  unfold makedirs, now, set_last_trained, set_files_ingested, open_w,
    file_write.
  do 7 (rewrite bind_run; world_simpl).
  unfold collaborator_pipeline. f_equal.
  unfold training_recorded, training_record.
  rewrite !lookup_insert_eq, !insert_insert_eq. simpl default.
  rewrite <- !(assoc_L (++)). reflexivity.
Qed.

Ltac run_call :=
  rewrite bind_run; unfold call at 1; world_simpl;
  match goal with
  | |- context [match ?f (ext _) with _ => _ end] =>
      destruct (f (ext _)) as [[?|?] ?] eqn:?
  | |- context [match ?f ?x with _ => _ end] =>
      destruct (f x) as [[?|?] ?] eqn:?
  end; world_simpl.

(** The collaborator calls touch neither the session state nor the
    cache; the files they may change, but [training_info.txt] stays as
    it is when no call touches it.  They add to the log only their own
    calls, which follow [pipeline_order] and are all made when a chain
    is returned. *)
Lemma collaborator_pipeline_cases files (w : World) :
  exists o w' calls,
    collaborator_pipeline rag files w = (o, w')
    /\ session w' = session w
    /\ (keeps_training_info rag cfg ->
        training_info cfg w' = training_info cfg w)
    /\ cache w' = cache w
    /\ o <> Stopped
    /\ log w' = log w ++ calls
    /\ Forall is_collaborator_call calls
    /\ collaborator_calls calls `prefix_of` pipeline_order
    /\ (forall chain, o = Ret chain ->
        collaborator_calls calls = pipeline_order).
Proof.
  unfold collaborator_pipeline.
  repeat run_call;
    try (unfold call; world_simpl;
         match goal with
         | |- context [match ?f ?x with _ => _ end] =>
             destruct (f x) as [[?|?] ?] eqn:?
         end);
    eexists _, _, _; (split; [reflexivity|]); world_simpl;
    rewrite <- ?(assoc_L (++)); simpl app;
    (split_and!;
       [ done
       | let Hk := fresh "Hk" in
         intros Hk; unfold training_info; world_simpl;
         rewrite !Hk by (by eexists); reflexivity
       | done | done | reflexivity
       | repeat constructor; by eexists
       | by eexists
       | by intros ? [=] ]).
Qed.

Lemma build_qa_chain_hit files chain (w : World) :
  cache w !! files = Some chain ->
  build_qa_chain rag py cfg files w = (Ret chain, w).
Proof. intros H. unfold build_qa_chain, cache_resource. by rewrite H. Qed.

(** A call that is not answered from the cache: the training
    information is recorded, the collaborators are called, and the
    chain, if one is returned, is stored in the cache. *)
Lemma build_qa_chain_miss files (w : World) :
  cache w !! files = None ->
  exists o w' calls,
    collaborator_pipeline rag files (training_recorded py cfg files w)
    = (o, w')
    /\ build_qa_chain rag py cfg files w
       = (o, match o with
             | Ret chain => with_cache (<[files := chain]> (cache w')) w'
             | _ => w'
             end)
    /\ session w' = session (training_recorded py cfg files w)
    /\ (keeps_training_info rag cfg ->
        training_info cfg w'
        = training_info cfg (training_recorded py cfg files w))
    /\ cache w' = cache w
    /\ o <> Stopped
    /\ log w'
       = log w
         ++ training_record cfg (datetime_now py (ext w)) (length files)
         ++ calls
    /\ Forall is_collaborator_call calls
    /\ collaborator_calls calls `prefix_of` pipeline_order
    /\ (forall chain, o = Ret chain ->
        collaborator_calls calls = pipeline_order).
Proof.
  intros Hmiss.
  destruct (collaborator_pipeline_cases files
              (training_recorded py cfg files w))
    as (o & w' & calls & Hrun & Hs & Hfs & Hc & Ho & Hlog & Hcalls).
  exists o, w', calls. split_and!; try done.
  - unfold build_qa_chain, cache_resource.
    rewrite Hmiss, build_qa_chain_body_halves, Hrun.
    by destruct o.
  - rewrite Hlog. unfold training_recorded. world_simpl.
    by rewrite <- (assoc_L (++)).
  - apply Hcalls.
  - apply Hcalls.
  - apply Hcalls.
Qed.

Lemma training_info_lines dt n :
  split_lines
    (("Last Trained: " +:+ strftime dt +:+ nl)
     +:+ "Files Ingested: " +:+ str_of_nat n +:+ nl)
  = ["Last Trained: " +:+ strftime dt; "Files Ingested: " +:+ str_of_nat n].
Proof.
  rewrite <- (append_assoc "Last Trained: " (strftime dt) nl).
  rewrite (append_assoc ("Last Trained: " +:+ strftime dt) nl).
  rewrite split_lines_line.
  2: { rewrite no_newline_app. by rewrite no_newline_strftime. }
  rewrite <- (append_assoc "Files Ingested: " (str_of_nat n) nl).
  f_equal.
  apply (split_lines_line ("Files Ingested: " +:+ str_of_nat n) "").
  rewrite no_newline_app. by rewrite no_newline_str_of_nat.
Qed.

(** C1, as the code has it: for every call of [build_qa_chain] that is
    not answered from the [st.cache_resource] cache, so that its body
    runs, the collaborators are first called in a world in which
    [training_info.txt] in the database directory holds exactly two
    lines, in this order: [Last Trained: <timestamp>], with the
    timestamp read at the start of the call, and
    [Files Ingested: <count>], with the length of the list of files
    passed in.  The body does not touch the file again, so the file
    holds these two lines after the call, whether the collaborators
    return or raise, provided that no collaborator call changes it. *)
Theorem build_qa_chain_training_info files (w : World) :
  cache w !! files = None ->
  let lines := [ "Last Trained: " +:+ strftime (datetime_now py (ext w));
                 "Files Ingested: " +:+ str_of_nat (length files) ] in
  let recorded := training_recorded py cfg files w in
  build_qa_chain_body rag py cfg files w
  = collaborator_pipeline rag files recorded
  /\ split_lines <$> training_info cfg recorded = Some lines
  /\ (keeps_training_info rag cfg ->
      split_lines <$> training_info cfg (build_qa_chain rag py cfg files w).2
      = Some lines).
Proof.
  intros Hmiss lines recorded.
  assert (Hrecorded : split_lines <$> training_info cfg recorded
                      = Some lines).
  { unfold training_info, recorded, training_recorded. world_simpl.
    rewrite lookup_insert_eq.
    exact (f_equal Some (training_info_lines _ _)). }
  split_and!.
  - apply build_qa_chain_body_halves.
  - exact Hrecorded.
  - intros Hkeeps.
    destruct (build_qa_chain_miss files w Hmiss)
      as (o & w' & calls & _ & Hrun & _ & Hfs & _).
    rewrite Hrun.
    assert (Hinfo : training_info cfg
                      (o, match o with
                          | Ret chain =>
                              with_cache (<[files := chain]> (cache w')) w'
                          | _ => w'
                          end).2
                    = training_info cfg w') by by destruct o.
    rewrite Hinfo, (Hfs Hkeeps). exact Hrecorded.
Qed.

Lemma collaborator_calls_app (l1 l2 : list Effect) :
  collaborator_calls (l1 ++ l2)
  = collaborator_calls l1 ++ collaborator_calls l2.
Proof. apply omap_app. Qed.

Lemma collaborator_calls_training_record dt n :
  collaborator_calls (training_record cfg dt n : list Effect) = [].
Proof. reflexivity. Qed.

(** C6, as the code has it: for every list of uploaded files, a call of
    [build_qa_chain] that is not answered from the [st.cache_resource]
    cache calls its collaborators in the fixed order [upload_files],
    [Ingestor().ingest] on the file paths returned by [upload_files],
    [create_llm], [create_retriever] on the llm and the vector store,
    [create_chain] on the llm and the retriever, up to and including
    the first one that raises: the call then raises the same exception,
    calls no further collaborator and stores nothing in the cache.
    When none raises, all five are called and the call returns exactly
    the value returned by [create_chain], which it also stores in the
    cache. *)
Theorem build_qa_chain_pipeline files (w : World) :
  cache w !! files = None ->
  let r := build_qa_chain rag py cfg files w in
  let ends o calls x :=
    r.1 = o
    /\ log r.2
       = log w
         ++ training_record cfg (datetime_now py (ext w)) (length files)
         ++ calls
    /\ ext r.2 = x
    /\ cache r.2
       = match o with
         | Ret chain => <[files := chain]> (cache w)
         | _ => cache w
         end in
  match upload_files rag files (ext w) with
  | (Err exn, x1) =>
      ends (Raised (CollaboratorError exn)) [CallUploadFiles files] x1
  | (Ok file_paths, x1) =>
  match ingest rag file_paths x1 with
  | (Err exn, x2) =>
      ends (Raised (CollaboratorError exn))
           [CallUploadFiles files; CallIngest file_paths] x2
  | (Ok vector_store, x2) =>
  match create_llm rag x2 with
  | (Err exn, x3) =>
      ends (Raised (CollaboratorError exn))
           [CallUploadFiles files; CallIngest file_paths; CallCreateLlm] x3
  | (Ok llm, x3) =>
  match create_retriever rag llm vector_store x3 with
  | (Err exn, x4) =>
      ends (Raised (CollaboratorError exn))
           [ CallUploadFiles files; CallIngest file_paths; CallCreateLlm;
             CallCreateRetriever llm vector_store ] x4
  | (Ok retriever, x4) =>
  match create_chain rag llm retriever x4 with
  | (Err exn, x5) =>
      ends (Raised (CollaboratorError exn))
           [ CallUploadFiles files; CallIngest file_paths; CallCreateLlm;
             CallCreateRetriever llm vector_store;
             CallCreateChain llm retriever ] x5
  | (Ok chain, x5) =>
      ends (Ret chain)
           [ CallUploadFiles files; CallIngest file_paths; CallCreateLlm;
             CallCreateRetriever llm vector_store;
             CallCreateChain llm retriever ] x5
  end end end end end.
Proof.
  intros Hmiss r ends. subst r ends. cbv beta.
  destruct (build_qa_chain_miss files w Hmiss)
    as (o & w' & calls & Hpipe & Hrun & _).
  rewrite Hrun. clear Hrun calls Hmiss. revert Hpipe.
  assert (Hlog : log (training_recorded py cfg files w)
                 = log w
                   ++ training_record cfg (datetime_now py (ext w))
                        (length files)) by reflexivity.
  revert Hlog.
  generalize (eq_refl : ext (training_recorded py cfg files w) = ext w).
  generalize (eq_refl : cache (training_recorded py cfg files w) = cache w).
  generalize (training_recorded py cfg files w) as w1.
  intros w1 Hcache Hext Hlog. unfold collaborator_pipeline.
  rewrite bind_run. unfold call at 1. rewrite Hext.
  destruct (upload_files rag files (ext w)) as [[file_paths|exn] x1];
    world_simpl;
    [|intros [= <- <-]; world_simpl;
      by rewrite Hcache, Hlog, <- !(assoc_L (++))].
  rewrite bind_run. unfold call at 1. world_simpl.
  destruct (ingest rag file_paths x1) as [[vector_store|exn] x2];
    world_simpl;
    [|intros [= <- <-]; world_simpl;
      by rewrite Hcache, Hlog, <- !(assoc_L (++))].
  rewrite bind_run. unfold call at 1. world_simpl.
  destruct (create_llm rag x2) as [[llm|exn] x3];
    world_simpl;
    [|intros [= <- <-]; world_simpl;
      by rewrite Hcache, Hlog, <- !(assoc_L (++))].
  rewrite bind_run. unfold call at 1. world_simpl.
  destruct (create_retriever rag llm vector_store x3)
    as [[retriever|exn] x4];
    world_simpl;
    [|intros [= <- <-]; world_simpl;
      by rewrite Hcache, Hlog, <- !(assoc_L (++))].
  unfold call. world_simpl.
  destruct (create_chain rag llm retriever x4) as [[chain|exn] x5];
    world_simpl; intros [= <- <-]; world_simpl;
    by rewrite Hcache, Hlog, <- !(assoc_L (++)).
Qed.


(** *** The guards *)

(** C2: if the user has uploaded no files, the value of the uploader
    being absent or empty, [show_upload_documents] emits a warning and
    halts the run, and none of [upload_files], [Ingestor().ingest],
    [create_llm], [create_retriever] and [create_chain] is called: all
    it does is draw the upload form, the warning and stop. *)
Theorem show_upload_documents_no_files uploaded_files (w : World) :
  uploaded_files = None \/ uploaded_files = Some [] ->
  let r := show_upload_documents rag py cfg uploaded_files w in
  r.1 = Stopped
  /\ r.2
     = with_log
         (log w
          ++ [ Render StEmpty;
               Render StContainer;
               Render (StTitle "Document Ingestion Portal 📁");
               Render (StHeader "VectorDB for VS-GPT 🆚🤖");
               Render (StSubheader
                         "Upload your documents to create the knowledge base");
               Render (StFileUploader "Upload PDF files");
               Render (StWarning "Please upload PDF documents to continue!");
               Render StStop ])
         w
  /\ collaborator_calls (log r.2) = collaborator_calls (log w).
Proof.
  intros Hempty r.
  assert (Htruthy : truthy_files uploaded_files = false)
    by (destruct Hempty; by subst).
  assert (Hrun : r = (Stopped,
                      with_log
                        (log w
                         ++ [ Render StEmpty;
                              Render StContainer;
                              Render (StTitle "Document Ingestion Portal 📁");
                              Render (StHeader "VectorDB for VS-GPT 🆚🤖");
                              Render (StSubheader
                                        "Upload your documents to create the knowledge base");
                              Render (StFileUploader "Upload PDF files");
                              Render (StWarning
                                        "Please upload PDF documents to continue!");
                              Render StStop ])
                        w)).
  { subst r. unfold show_upload_documents.
    do 6 (rewrite bind_run, st_run; world_simpl).
    rewrite Htruthy. simpl negb. cbv iota.
    rewrite bind_run, bind_run, st_run. world_simpl.
    unfold st_stop. world_simpl.
    by rewrite <- !(assoc_L (++)). }
  rewrite Hrun. split_and!; [done|done|].
  world_simpl. rewrite collaborator_calls_app. simpl.
  by rewrite app_nil_r.
Qed.

(** The chat messages stored once the script has initialised them. *)
Lemma init_messages_run (w : World) :
  init_messages (Exn := Exn) w
  = (Ret tt,
     match messages (session w) with
     | Some _ => w
     | None =>
         with_log (log w ++ [SessionSet "messages"])
           (with_session
              {| messages := Some [greeting];
                 last_trained := last_trained (session w);
                 files_ingested := files_ingested (session w) |} w)
     end).
Proof. unfold init_messages. by destruct (messages (session w)). Qed.

Lemma limit_guard_reached (w : World) ms :
  messages (session w) = Some ms ->
  (0 < CONVERSATION_MESSAGES_LIMIT cfg)%Z ->
  (CONVERSATION_MESSAGES_LIMIT cfg <= Z.of_nat (length ms))%Z ->
  limit_guard (Exn := Exn) cfg w
  = (Stopped,
     with_log
       (log w
        ++ [ Render (StWarning
                       "You have reached the conversation limit. Refresh the page to start a new conversation.");
             Render StStop ]) w).
Proof.
  intros Hms Hpos Hreached. unfold limit_guard.
  apply Z.ltb_lt in Hpos. apply Z.leb_le in Hreached.
  rewrite bind_run, Hpos, bind_run. unfold get_messages. rewrite Hms.
  unfold mret, M_ret, ret. rewrite Hreached.
  rewrite bind_run, st_run. unfold st_stop. world_simpl.
  by rewrite <- (assoc_L (++)).
Qed.

(** C3, as the code has it: if [Config.CONVERSATION_MESSAGES_LIMIT] is
    strictly positive and the number of stored chat messages is at
    least that limit, the script emits a warning and halts before the
    upload handler, message rendering or chat input run: after the page
    set-up and the initialisation of the messages it only draws the
    warning and stops. *)
Theorem script_conversation_limit inp (w : World) :
  let stored := default [greeting] (messages (session w)) in
  (0 < CONVERSATION_MESSAGES_LIMIT cfg)%Z ->
  (CONVERSATION_MESSAGES_LIMIT cfg <= Z.of_nat (length stored))%Z ->
  let r := script rag py cfg inp w in
  r.1 = Stopped
  /\ log r.2
     = log w
       ++ [ Render (StSetPageConfig "VectoScalar-GPT" "🆚");
            Render (StHtml emotion_cache_style);
            Render (StMarkdown hide_st_style) ]
       ++ match messages (session w) with
          | Some _ => []
          | None => [SessionSet "messages"]
          end
       ++ [ Render (StWarning
                      "You have reached the conversation limit. Refresh the page to start a new conversation.");
            Render StStop ]
  /\ history r.2 = stored
  /\ fs r.2 = fs w /\ cache r.2 = cache w /\ ext r.2 = ext w.
Proof.
  intros stored Hpos Hreached r.
  assert (Hrun : r = (Stopped,
    let w1 :=
      with_log
        (log w
         ++ [ Render (StSetPageConfig "VectoScalar-GPT" "🆚");
              Render (StHtml emotion_cache_style);
              Render (StMarkdown hide_st_style) ]) w in
    let w0 :=
      match messages (session w) with
      | Some _ => w1
      | None =>
          with_log (log w1 ++ [SessionSet "messages"])
            (with_session
               {| messages := Some [greeting];
                  last_trained := last_trained (session w);
                  files_ingested := files_ingested (session w) |} w1)
      end in
    with_log
      (log w0
       ++ [ Render (StWarning
                      "You have reached the conversation limit. Refresh the page to start a new conversation.");
            Render StStop ]) w0)).
  { subst r. unfold script.
    do 3 (rewrite bind_run, st_run; world_simpl).
    rewrite bind_run, init_messages_run. world_simpl.
    rewrite bind_run.
    rewrite (limit_guard_reached _ stored);
      [|subst stored;
        by destruct (messages (session w)) eqn:E; world_simpl; rewrite ?E
       |exact Hpos|exact Hreached].
    cbv zeta.
    destruct (messages (session w)); world_simpl;
      rewrite <- ?(assoc_L (++)); reflexivity. }
  rewrite Hrun. subst stored.
  unfold history.
  destruct (messages (session w)) as [ms|] eqn:Hms; world_simpl;
    rewrite ?Hms; rewrite <- ?(assoc_L (++)); done.
Qed.

(** A limit that is not positive is never enforced. *)
Lemma limit_guard_disabled (w : World) :
  (CONVERSATION_MESSAGES_LIMIT cfg <= 0)%Z ->
  limit_guard (Exn := Exn) cfg w = (Ret tt, w).
Proof.
  intros Hle. unfold limit_guard. rewrite bind_run.
  assert (H : (0 <? CONVERSATION_MESSAGES_LIMIT cfg)%Z = false)
    by by apply Z.ltb_ge.
  by rewrite H.
Qed.

(** ** Further properties of the script *)

(** *** The conversation limit *)

Lemma limit_guard_passes (w : World) :
  is_Some (messages (session w)) ->
  below_limit cfg w ->
  limit_guard (Exn := Exn) cfg w = (Ret tt, w).
Proof.
  intros [ms Hms] [Hoff|Hbelow].
  - by apply limit_guard_disabled.
  - unfold stored_messages in Hbelow. rewrite Hms in Hbelow.
    cbn [default from_option id] in Hbelow.
    unfold limit_guard. rewrite bind_run.
    destruct (0 <? CONVERSATION_MESSAGES_LIMIT cfg)%Z; [|done].
    rewrite bind_run. unfold get_messages. rewrite Hms.
    unfold mret, M_ret, ret.
    assert (H : (CONVERSATION_MESSAGES_LIMIT cfg <=? Z.of_nat (length ms))%Z
                = false) by by apply Z.leb_gt.
    by rewrite H.
Qed.

(** X1: The guard stops the run exactly when the limit is positive and the
    stored messages have reached it; otherwise it does nothing at
    all. *)
Theorem limit_guard_fires_iff (w : World) ms :
  messages (session w) = Some ms ->
  ((limit_guard (Exn := Exn) cfg w).1 = Stopped
   <-> (0 < CONVERSATION_MESSAGES_LIMIT cfg
        <= Z.of_nat (length ms))%Z)
  /\ ((limit_guard (Exn := Exn) cfg w).1 = Stopped
      \/ limit_guard (Exn := Exn) cfg w = (Ret tt, w)).
Proof.
  intros Hms.
  destruct (decide (0 < CONVERSATION_MESSAGES_LIMIT cfg
                    <= Z.of_nat (length ms))%Z) as [[Hpos Hle]|Hnot].
  - rewrite (limit_guard_reached w ms Hms Hpos Hle). split; [|by left].
    split; [done|]. intros _. reflexivity.
  - assert (Hpass : limit_guard (Exn := Exn) cfg w = (Ret tt, w)).
    { apply limit_guard_passes; [by eexists|].
      unfold below_limit, stored_messages. rewrite Hms.
      cbn [default from_option id]. lia. }
    rewrite Hpass. split; [|by right].
    split; [done|]. intros H. by destruct Hnot.
Qed.

(** A run that finds the limit reached: page set-up, warning, stop. *)
Lemma script_limit_run inp (w : World) ms :
  messages (session w) = Some ms ->
  (0 < CONVERSATION_MESSAGES_LIMIT cfg <= Z.of_nat (length ms))%Z ->
  script rag py cfg inp w
  = (Stopped,
     with_log
       (log w ++ page_setup
        ++ [ Render (StWarning
                       "You have reached the conversation limit. Refresh the page to start a new conversation.");
             Render StStop ]) w).
Proof.
  intros Hms [Hpos Hle]. unfold script.
  do 3 (rewrite bind_run, st_run; world_simpl).
  rewrite bind_run, init_messages_run. world_simpl. rewrite Hms.
  rewrite bind_run.
  rewrite (limit_guard_reached _ ms); [|by world_simpl|done|done].
  world_simpl. unfold page_setup.
  by rewrite <- !(assoc_L (++)).
Qed.

(** X2: Once the limit is reached in a session, no later run of the script
    changes anything but the page: whatever the user uploads or asks,
    the messages, the training information, the files, the cache and
    the outside world stay as they are, and no collaborator and no
    [ask_question] is called. *)
Theorem conversation_frozen_at_limit runs (w : World) ms :
  messages (session w) = Some ms ->
  (0 < CONVERSATION_MESSAGES_LIMIT cfg <= Z.of_nat (length ms))%Z ->
  let w' := session_runs rag py cfg runs w in
  session w' = session w /\ fs w' = fs w /\ cache w' = cache w
  /\ ext w' = ext w
  /\ collaborator_calls (log w') = collaborator_calls (log w)
  /\ ask_question_calls (log w') = ask_question_calls (log w).
Proof.
  intros Hms Hlimit. revert w Hms.
  induction runs as [|inp runs IH]; intros w Hms; [done|].
  simpl. rewrite (script_limit_run inp w ms Hms Hlimit). world_simpl.
  destruct (IH (with_log
                  (log w ++ page_setup
                   ++ [ Render (StWarning
                                  "You have reached the conversation limit. Refresh the page to start a new conversation.");
                        Render StStop ]) w) Hms)
    as (Hs & Hfs & Hc & Hx & Hcalls & Hasks).
  split_and!; [done|done|done|done| |].
  - rewrite Hcalls. world_simpl. rewrite !collaborator_calls_app.
    simpl. by rewrite app_nil_r.
  - rewrite Hasks. world_simpl. unfold ask_question_calls.
    rewrite !omap_app. simpl. by rewrite app_nil_r.
Qed.

(** *** The resource cache *)

Local Abbreviation cache_grows :=
  (@cache_grows FilePaths VectorStore LLM Retriever Chain Ext).

Global Instance cache_grows_preorder : PreOrder cache_grows.
Proof.
  split.
  - intros w. unfold cache_grows. reflexivity.
  - intros w1 w2 w3 H1 H2. unfold cache_grows in *. by etrans.
Qed.

Ltac cache_prim :=
  let w := fresh "w" in
  intros w; unfold cache_grows; autounfold with prims;
  repeat match goal with
         | |- context [match ?x with _ => _ end] => destruct x eqn:?
         end; simpl; try reflexivity.

Lemma cache_build_qa_chain files :
  steps cache_grows (build_qa_chain rag py cfg files).
Proof.
  intros w. unfold cache_grows.
  destruct (cache w !! files) as [cached|] eqn:Hcache.
  - by rewrite (build_qa_chain_hit _ _ _ Hcache).
  - destruct (build_qa_chain_miss files w Hcache)
      as (o & w1 & calls & _ & Hrun & _ & _ & Hc & _).
    rewrite Hrun. destruct o; world_simpl; rewrite ?Hc; [|done..].
    by apply insert_subseteq.
Qed.

Lemma cache_ask_chain_loop events full_response documents :
  steps cache_grows (ask_chain_loop events full_response documents).
Proof.
  intros w. rewrite ask_chain_loop_run. unfold cache_grows. done.
Qed.

Lemma cache_messages_append m : steps cache_grows (messages_append m).
Proof.
  intros w. unfold cache_grows, messages_append.
  by destruct (messages (session w)).
Qed.

Lemma cache_init_messages : steps cache_grows init_messages.
Proof.
  intros w. rewrite init_messages_run. unfold cache_grows.
  by destruct (messages (session w)).
Qed.

Lemma cache_script inp : steps cache_grows (script rag py cfg inp).
Proof.
  unfold script, limit_guard, show_message_history, show_upload_documents,
    show_chat_input, ask_chain, show_sources.
  steps_split;
    first [ apply cache_init_messages
          | apply cache_build_qa_chain
          | apply cache_ask_chain_loop
          | apply cache_messages_append
          | cache_prim ].
Qed.

(** X4: The cache is never emptied and no entry is ever replaced: over any
    sequence of runs of the script, whatever their outcome, every chain
    that was cached for a list of files is still the chain cached for
    it. *)
Theorem cache_only_grows runs (w : World) :
  cache w ⊆ cache (session_runs rag py cfg runs w).
Proof.
  revert w. induction runs as [|inp runs IH]; intros w; simpl; [done|].
  etrans; [apply (cache_script inp w)|apply IH].
Qed.

(** *** Asking a question *)

Lemma show_chat_input_idle chain prompt (w : World) :
  prompt = None \/ prompt = Some "" ->
  show_chat_input rag py cfg chain prompt w
  = (Ret tt,
     with_log (log w ++ [Render (StChatInput "Ask your question here")]) w).
Proof.
  intros Hprompt. unfold show_chat_input.
  rewrite bind_run, st_run.
  by destruct Hprompt as [-> | ->].
Qed.

(** X5: Without a question, [None] or the empty string, the chat input is
    drawn and nothing else happens: no message is stored, nothing is
    asked and the outside world is not touched. *)
Theorem show_chat_input_no_prompt chain prompt (w : World) :
  prompt = None \/ prompt = Some "" ->
  let r := show_chat_input rag py cfg chain prompt w in
  r.1 = Ret tt
  /\ log r.2 = log w ++ [Render (StChatInput "Ask your question here")]
  /\ session r.2 = session w
  /\ ext r.2 = ext w
  /\ ask_question_calls (log r.2) = ask_question_calls (log w).
Proof.
  intros Hprompt r. subst r.
  rewrite (show_chat_input_idle chain prompt w Hprompt). world_simpl.
  split_and!; try done.
  unfold ask_question_calls. rewrite omap_app. simpl.
  by rewrite app_nil_r.
Qed.

(** With a question, the user message is stored and drawn, then
    [ask_chain] runs. *)
Lemma show_chat_input_run chain question (w : World) ms :
  question <> "" ->
  messages (session w) = Some ms ->
  show_chat_input rag py cfg chain (Some question) w
  = ask_chain rag py cfg question chain
      (with_log
         (log w
          ++ [ Render (StChatInput "Ask your question here");
               MessagesAppend {| role := "user"; content := question |};
               Render (StChatMessage "user"
                         (path_join (IMAGES_DIR cfg) "user-avatar.png"));
               Render (StMarkdown question) ])
         (with_session
            {| messages :=
                 Some (ms ++ [ {| role := "user"; content := question |} ]);
               last_trained := last_trained (session w);
               files_ingested := files_ingested (session w) |} w)).
Proof.
  intros Hq Hms. unfold show_chat_input.
  rewrite bind_run, st_run.
  assert (Htruthy : truthy_str (Some question) = true)
    by by destruct question.
  rewrite Htruthy. cbn [default from_option id].
  rewrite bind_run. unfold messages_append at 1. world_simpl. rewrite Hms.
  do 2 (rewrite bind_run, st_run; world_simpl).
  rewrite <- !(assoc_L (++)). reflexivity.
Qed.

Lemma expander_labels_updates bodies :
  expander_labels (placeholder_updates bodies) = [].
Proof.
  unfold expander_labels, placeholder_updates.
  induction bodies as [|b bodies IH]; simpl; done.
Qed.

Lemma expander_labels_enumerated k documents :
  expander_labels
    (flat_map
       (fun '(i, doc) =>
          [ Render (StExpander ("Source #" +:+ str_of_nat (i + 1)));
            Render (StWriteText (page_content doc)) ])
       (imap (fun i doc => (k + i, doc)) documents) : list Effect)
  = (fun i => "Source #" +:+ str_of_nat (i + 1))
      <$> seq k (length documents).
Proof.
  revert k. induction documents as [|doc documents IH]; intros k; [done|].
  cbn [imap flat_map length seq fmap list_fmap].
  rewrite Nat.add_0_r. unfold expander_labels in *.
  rewrite omap_app. cbn [omap list_omap app]. f_equal.
  rewrite <- IH. do 2 f_equal.
  apply imap_ext. intros i x _. simpl. f_equal. lia.
Qed.

Lemma expander_labels_sources documents :
  expander_labels (source_effects documents)
  = (fun i => "Source #" +:+ str_of_nat (i + 1))
      <$> seq 0 (length documents).
Proof. apply (expander_labels_enumerated 0). Qed.

(** What [ask_chain] leaves when the stream ends normally. *)
Lemma ask_chain_answered question chain (w : World) ms events x2 :
  messages (session w) = Some ms ->
  ask_question rag chain question "session-id-42"
    (random_index py (ext w)).2 = (events, None, x2) ->
  exists l,
    ask_chain rag py cfg question chain w
    = (Ret tt,
       with_log
         (log w ++ l
          ++ [ MessagesAppend
                 {| role := "assistant";
                    content := join (text_fragments events) |} ])
         (with_session
            {| messages :=
                 Some (ms ++ [ {| role := "assistant";
                                  content := join (text_fragments events) |} ]);
               last_trained := last_trained (session w);
               files_ingested := files_ingested (session w) |}
            (with_ext x2 w)))
    /\ expander_labels l
       = (if SHOW_SOURCES cfg
          then (fun i => "Source #" +:+ str_of_nat (i + 1))
                 <$> seq 0 (length (concat (document_lists events)))
          else []).
Proof.
  intros Hms Hask.
  pose proof (ask_chain_run rag question chain w) as Hrun.
  destruct (random_index py (ext w)) as [i x1]. simpl in Hask.
  rewrite Hask in Hrun. rewrite Hrun. unfold messages_append.
  set (loading := nth _ _ _).
  exists ([ Render (StChatMessage "assistant"
                      (path_join (IMAGES_DIR cfg) "assistant-avatar.png"));
            Render StEmpty;
            Render (StPlaceholderStatus loading);
            CallAskQuestion chain question "session-id-42" ]
          ++ placeholder_updates (running_joins "" (text_fragments events))
          ++ (if SHOW_SOURCES cfg
              then source_effects (concat (document_lists events))
              else [])).
  split.
  - destruct (SHOW_SOURCES cfg); world_simpl; rewrite Hms; world_simpl;
      rewrite <- ?(assoc_L (++)), ?app_nil_r; reflexivity.
  - unfold expander_labels. rewrite !omap_app.
    fold (expander_labels (placeholder_updates
            (running_joins "" (text_fragments events)))).
    rewrite expander_labels_updates.
    destruct (SHOW_SOURCES cfg); [|done].
    apply expander_labels_sources.
Qed.

(** What [ask_chain] leaves when the stream breaks off. *)
Lemma ask_chain_broken question chain (w : World) events exn x2 :
  ask_question rag chain question "session-id-42"
    (random_index py (ext w)).2 = (events, Some exn, x2) ->
  exists l,
    ask_chain rag py cfg question chain w
    = (Raised (CollaboratorError exn), with_log (log w ++ l) (with_ext x2 w))
    /\ placeholder_markdowns l = running_joins "" (text_fragments events)
    /\ expander_labels l = []
    /\ written_sources l = [].
Proof.
  intros Hask.
  pose proof (ask_chain_run rag question chain w) as Hrun.
  destruct (random_index py (ext w)) as [i x1]. simpl in Hask.
  rewrite Hask in Hrun. rewrite Hrun.
  set (loading := nth _ _ _).
  exists ([ Render (StChatMessage "assistant"
                      (path_join (IMAGES_DIR cfg) "assistant-avatar.png"));
            Render StEmpty;
            Render (StPlaceholderStatus loading);
            CallAskQuestion chain question "session-id-42" ]
          ++ placeholder_updates (running_joins "" (text_fragments events))).
  split; [reflexivity|].
  split_and!.
  - unfold placeholder_markdowns. rewrite omap_app.
    apply placeholder_markdowns_updates.
  - unfold expander_labels. rewrite omap_app.
    apply expander_labels_updates.
  - unfold written_sources. rewrite omap_app.
    apply written_sources_updates.
Qed.

(** X6: A question that is answered adds exactly two messages at the end of
    the history: the question, as the user, then the full response, as
    the assistant. *)
Theorem show_chat_input_answered chain question (w : World) ms events x2 :
  question <> "" ->
  messages (session w) = Some ms ->
  ask_question rag chain question "session-id-42"
    (random_index py (ext w)).2 = (events, None, x2) ->
  let r := show_chat_input rag py cfg chain (Some question) w in
  r.1 = Ret tt
  /\ messages (session r.2)
     = Some (ms ++ [ {| role := "user"; content := question |};
                     {| role := "assistant";
                        content := join (text_fragments events) |} ]).
Proof.
  intros Hq Hms Hask r. subst r.
  rewrite (show_chat_input_run chain question w ms Hq Hms).
  match goal with
  | |- context [ask_chain _ _ _ _ _ ?w1] =>
      destruct (ask_chain_answered question chain w1
                  (ms ++ [ {| role := "user"; content := question |} ])
                  events x2 eq_refl Hask) as (l & Hrun & _)
  end.
  rewrite Hrun. world_simpl. by rewrite <- (assoc_L (++)).
Qed.

(** X7: A question whose stream breaks off stays in the history without an
    answer: the exception of the collaborator propagates, the user
    message is stored, no assistant message is, the placeholder keeps
    the text received so far and no source is shown. *)
Theorem show_chat_input_stream_raises chain question (w : World) ms events
    exn x2 :
  question <> "" ->
  messages (session w) = Some ms ->
  ask_question rag chain question "session-id-42"
    (random_index py (ext w)).2 = (events, Some exn, x2) ->
  let r := show_chat_input rag py cfg chain (Some question) w in
  r.1 = Raised (CollaboratorError exn)
  /\ messages (session r.2)
     = Some (ms ++ [ {| role := "user"; content := question |} ])
  /\ placeholder_markdowns (log r.2)
     = placeholder_markdowns (log w)
       ++ running_joins "" (text_fragments events)
  /\ expander_labels (log r.2) = expander_labels (log w).
Proof.
  intros Hq Hms Hask r. subst r.
  rewrite (show_chat_input_run chain question w ms Hq Hms).
  match goal with
  | |- context [ask_chain _ _ _ _ _ ?w1] =>
      destruct (ask_chain_broken question chain w1 events exn x2 Hask)
        as (l & Hrun & Hshown & Hlabels & _)
  end.
  rewrite Hrun. world_simpl. split_and!; [done|done| |].
  - unfold placeholder_markdowns in *. rewrite !omap_app, Hshown.
    simpl. by rewrite app_nil_r.
  - unfold expander_labels in *. rewrite !omap_app, Hlabels.
    simpl. by rewrite !app_nil_r.
Qed.

(** X8: The sources of an answer are numbered from 1 in the order in which
    the documents arrived: with [SHOW_SOURCES] set, [ask_chain] draws
    one expander per collected document, the k-th labelled
    [Source #k]; without it, it draws none. *)
Theorem ask_chain_source_labels question chain (w : World) ms events x2 :
  messages (session w) = Some ms ->
  ask_question rag chain question "session-id-42"
    (random_index py (ext w)).2 = (events, None, x2) ->
  expander_labels (log (ask_chain rag py cfg question chain w).2)
  = expander_labels (log w)
    ++ (if SHOW_SOURCES cfg
        then (fun i => "Source #" +:+ str_of_nat (i + 1))
               <$> seq 0 (length (concat (document_lists events)))
        else []).
Proof.
  intros Hms Hask.
  destruct (ask_chain_answered question chain w ms events x2 Hms Hask)
    as (l & Hrun & Hlabels).
  rewrite Hrun. world_simpl.
  unfold expander_labels in *. rewrite !omap_app, Hlabels.
  simpl. by rewrite app_nil_r.
Qed.

(** *** The message history on the page *)

Lemma show_message_history_run (w : World) ms :
  messages (session w) = Some ms ->
  show_message_history (Exn := Exn) cfg w
  = (Ret tt, with_log (log w ++ flat_map (chat_bubble cfg) ms) w).
Proof.
  intros Hms. unfold show_message_history.
  rewrite bind_run. unfold get_messages. rewrite Hms.
  apply for_each_logs. intros m w'.
  rewrite bind_run, st_run. world_simpl. rewrite st_run. world_simpl.
  by rewrite <- (assoc_L (++)).
Qed.




(** Before the messages are initialised, [show_message_history] raises
    the [AttributeError] of the missing attribute and draws nothing. *)
Lemma show_message_history_uninitialised (w : World) :
  messages (session w) = None ->
  show_message_history (Exn := Exn) cfg w
  = (Raised (AttributeError "messages"), w).
Proof.
  intros Hms. unfold show_message_history.
  rewrite bind_run. unfold get_messages. by rewrite Hms.
Qed.

(** *** What the parts of the script leave alone *)

Local Abbreviation messages_kept :=
  (@messages_kept FilePaths VectorStore LLM Retriever Chain Ext).
Local Abbreviation training_state_kept :=
  (@training_state_kept FilePaths VectorStore LLM Retriever Chain Ext).

Global Instance messages_kept_preorder : PreOrder messages_kept.
Proof.
  split.
  - intros w. reflexivity.
  - intros w1 w2 w3 H1 H2. unfold messages_kept in *. congruence.
Qed.

Global Instance training_state_kept_preorder :
  PreOrder training_state_kept.
Proof.
  split.
  - intros w. by unfold training_state_kept.
  - intros w1 w2 w3 (?&?&?&?&?) (?&?&?&?&?).
    unfold training_state_kept. split_and!; congruence.
Qed.

Ltac kept_prim :=
  let w := fresh "w" in
  intros w; unfold messages_kept, training_state_kept;
  autounfold with prims;
  repeat match goal with
         | |- context [match ?x with _ => _ end] => destruct x eqn:?
         end; simpl; try done.

(** X10: Building the chain never touches the chat messages: after
    [show_upload_documents], whatever its outcome, the stored messages
    are exactly those stored before. *)
Theorem show_upload_documents_keeps_messages uploaded_files (w : World) :
  messages (session (show_upload_documents rag py cfg uploaded_files w).2)
  = messages (session w).
Proof.
  revert w. change (steps messages_kept
                      (show_upload_documents rag py cfg uploaded_files)).
  unfold show_upload_documents.
  steps_split; try kept_prim.
  unfold build_qa_chain.
  apply steps_cache_resource; [apply _|done|].
  unfold build_qa_chain_body. steps_split; kept_prim.
Qed.

Lemma training_state_ask_chain_loop events full_response documents :
  steps training_state_kept
    (ask_chain_loop events full_response documents).
Proof. intros w. by rewrite ask_chain_loop_run. Qed.

Lemma training_state_messages_append m :
  steps training_state_kept (messages_append m).
Proof.
  intros w. unfold messages_append.
  by destruct (messages (session w)).
Qed.

(** X11: Asking a question never touches the training information: after
    [show_chat_input], whatever the question, the stream and the
    outcome, the files, the directories, the cache and the session's
    [last_trained] and [files_ingested] are as they were. *)
Theorem show_chat_input_keeps_training_state chain prompt (w : World) :
  let w' := (show_chat_input rag py cfg chain prompt w).2 in
  fs w' = fs w /\ dirs w' = dirs w /\ cache w' = cache w
  /\ last_trained (session w') = last_trained (session w)
  /\ files_ingested (session w') = files_ingested (session w).
Proof.
  revert w. change (steps training_state_kept
                      (show_chat_input rag py cfg chain prompt)).
  unfold show_chat_input, ask_chain, show_sources.
  steps_split;
    first [ apply training_state_ask_chain_loop
          | apply training_state_messages_append
          | kept_prim ].
Qed.

(** *** Reading the messages never fails in the script *)

Local Abbreviation messages_safe :=
  (@messages_safe FilePaths VectorStore LLM Retriever Chain Exn Ext).

Lemma safe_ret {A} (a : A) : messages_safe (mret a : M A).
Proof. by intros w Hw. Qed.

Lemma safe_raise_collaborator {A} e :
  messages_safe (raise (CollaboratorError e) : M A).
Proof. by intros w Hw. Qed.

Lemma safe_bind {A B} (m : M A) (k : A -> M B) :
  messages_safe m -> (forall a, messages_safe (k a)) ->
  messages_safe (m ≫= k).
Proof.
  intros Hm Hk w Hw. rewrite bind_run.
  destruct (Hm w Hw) as [Hw' Hout].
  destruct (m w) as [[a| |e] w']; simpl in *;
    [by apply Hk|split; [assumption|congruence]..].
Qed.

Lemma safe_for_each {A} (xs : list A) (body : A -> M unit) :
  (forall x, messages_safe (body x)) -> messages_safe (for_each xs body).
Proof.
  intros Hbody. induction xs as [|x xs IH]; simpl.
  - apply safe_ret.
  - apply safe_bind; auto.
Qed.

Ltac safe_split :=
  repeat match goal with
    | |- messages_safe (mret _) => apply safe_ret
    | |- messages_safe (raise (CollaboratorError _)) =>
        apply safe_raise_collaborator
    | |- messages_safe (mbind _ _) => apply safe_bind; [|intros ?]
    | |- messages_safe (for_each _ _) => apply safe_for_each; intros ?
    | |- messages_safe (if ?b then _ else _) => destruct b
    | |- messages_safe (match ?x with _ => _ end) => destruct x
    | |- messages_safe (let _ := _ in _) => progress cbv zeta
    | |- messages_safe ((fun _ => _) _) => progress cbv beta
    end.

Ltac safe_prim :=
  let w := fresh "w" in
  let Hw := fresh "Hw" in
  intros w [? Hw]; autounfold with prims; unfold messages_append;
  rewrite ?Hw;
  repeat match goal with
         | |- context [match ?x with _ => _ end] => destruct x eqn:?
         end; simpl; rewrite ?Hw; split; (by eexists) || done.

Lemma safe_ask_chain_loop events full_response documents :
  messages_safe (ask_chain_loop events full_response documents).
Proof. intros w Hw. by rewrite ask_chain_loop_run. Qed.

Lemma safe_build_qa_chain files :
  messages_safe (build_qa_chain rag py cfg files).
Proof.
  intros w Hw.
  destruct (cache w !! files) as [cached|] eqn:Hcache.
  - by rewrite (build_qa_chain_hit _ _ _ Hcache).
  - destruct (build_qa_chain_miss files w Hcache)
      as (o & w1 & calls & Hpipe & Hrun & Hs & _).
    rewrite Hrun.
    assert (Hsome : is_Some (messages (session w1))) by by rewrite Hs.
    split; [by destruct o|]. simpl.
    revert Hpipe. unfold collaborator_pipeline. clear.
    repeat (rewrite bind_run; unfold call at 1; world_simpl;
            match goal with
            | |- context [match ?f ?x with _ => _ end] =>
                destruct (f x) as [[?|?] ?]
            end; world_simpl; try (by intros [= <- _])).
    unfold call; world_simpl.
    match goal with
    | |- context [match ?f ?x with _ => _ end] =>
        destruct (f x) as [[?|?] ?]
    end; by intros [= <- _].
Qed.

Lemma safe_after_init inp :
  messages_safe
    (limit_guard cfg;;
     chain ← show_upload_documents rag py cfg (uploaded_files inp);
     st (StMarkdown "
                # :rainbow[VectoScalar-GPT] 🆚🤖
            ");;
     st StColumns;;
     st (StSuccess ("Version : " +:+ VERSION cfg));;
     last_trained ← get_last_trained;
     st (StInfo ("Last Trained : " +:+ last_trained));;
     files_ingested ← get_files_ingested;
     st (StWarning ("Files Ingested : " +:+ str_of_nat files_ingested));;
     show_message_history cfg;;
     show_chat_input rag py cfg chain (prompt inp)).
Proof.
  unfold limit_guard, show_upload_documents, show_message_history,
    show_chat_input, ask_chain, show_sources.
  safe_split;
    first [ apply safe_build_qa_chain
          | apply safe_ask_chain_loop
          | safe_prim ].
Qed.

(** X12: The script never fails for want of the message list: it stores the
    greeting before anything reads the messages and nothing removes
    them, so no run, from any state, ends in the [AttributeError] of a
    missing [st.session_state.messages]. *)
Theorem script_never_misses_messages inp (w : World) :
  (script rag py cfg inp w).1 <> Raised (AttributeError "messages")
  /\ is_Some (messages (session (script rag py cfg inp w).2)).
Proof.
  unfold script.
  do 3 (rewrite bind_run, st_run; world_simpl).
  rewrite bind_run, init_messages_run. world_simpl.
  match goal with
  | |- context [(limit_guard cfg ≫= ?k) ?w1] =>
      pose proof (safe_after_init inp w1) as Hsafe;
      assert (Hsome : is_Some (messages (session w1)))
        by (by destruct (messages (session w)) eqn:E; world_simpl;
              rewrite ?E);
      destruct (Hsafe Hsome) as [Hkeep Hout]
  end.
  split; [exact Hout|exact Hkeep].
Qed.

(** *** Whole runs of the script *)

Lemma bind_mret_run {A} (m : M A) (w : World) :
  (a ← m; mret a) w = m w.
Proof. rewrite bind_run. by destruct (m w) as [[a| |e] w']. Qed.

(** With files uploaded, the form is drawn, then the spinner, then the
    chain is built. *)
Lemma show_upload_documents_run files (w : World) :
  files <> [] ->
  show_upload_documents rag py cfg (Some files) w
  = build_qa_chain rag py cfg files
      (with_log
         (log w ++ upload_form
          ++ [ Render (StSpinner "Analyzing your document(s)...");
               Render StHolderEmpty ]) w).
Proof.
  intros Hfiles. unfold show_upload_documents.
  do 6 (rewrite bind_run, st_run; world_simpl).
  assert (Htruthy : truthy_files (Some files) = true)
    by by destruct files.
  rewrite Htruthy. simpl negb. cbv iota.
  rewrite bind_run. unfold mret at 1, M_ret, ret.
  do 2 (rewrite bind_run, st_run; world_simpl).
  rewrite bind_mret_run. cbn [default from_option id].
  unfold upload_form. rewrite <- !(assoc_L (++)). reflexivity.
Qed.

(** The world in which the script reaches the upload handler. *)
Lemma script_reaches_upload inp (w : World) :
  below_limit cfg w ->
  exists k,
    script rag py cfg inp w
    = (show_upload_documents rag py cfg (uploaded_files inp) ≫= k)
        (with_log (log w ++ page_setup ++ messages_setup w)
           (with_session
              {| messages := Some (stored_messages w);
                 last_trained := last_trained (session w);
                 files_ingested := files_ingested (session w) |} w))
    /\ k = (fun chain =>
              st (StMarkdown "
                # :rainbow[VectoScalar-GPT] 🆚🤖
            ");;
              st StColumns;;
              st (StSuccess ("Version : " +:+ VERSION cfg));;
              last_trained ← get_last_trained;
              st (StInfo ("Last Trained : " +:+ last_trained));;
              files_ingested ← get_files_ingested;
              st (StWarning
                    ("Files Ingested : " +:+ str_of_nat files_ingested));;
              show_message_history cfg;;
              show_chat_input rag py cfg chain (prompt inp)).
Proof.
  intros Hbelow. eexists. split; [|reflexivity].
  unfold script.
  do 3 (rewrite bind_run, st_run; world_simpl).
  rewrite bind_run, init_messages_run. world_simpl.
  rewrite bind_run.
  unfold below_limit, stored_messages, messages_setup in *.
  destruct (messages (session w)) as [ms|] eqn:Hms.
  - rewrite limit_guard_passes;
      [|by world_simpl; rewrite Hms
       |by unfold below_limit, stored_messages; world_simpl; rewrite Hms].
    unfold page_setup. rewrite <- !(assoc_L (++)), app_nil_r.
    cbn [default from_option id app].
    f_equal. destruct w as [[] ? ? ? ? ?]. simpl in *. by subst.
  - rewrite limit_guard_passes;
      [|by world_simpl
       |by unfold below_limit, stored_messages; world_simpl].
    unfold page_setup. rewrite <- !(assoc_L (++)).
    reflexivity.
Qed.

(** X13: A visit without uploaded files, below the conversation limit: the
    page is set up, the greeting is stored if no message was, the upload
    form and the warning are drawn and the run stops there.  The chat
    is not drawn, no collaborator is called, and files, cache and the
    outside world are as they were. *)
Theorem script_without_upload inp (w : World) :
  below_limit cfg w ->
  uploaded_files inp = None \/ uploaded_files inp = Some [] ->
  let r := script rag py cfg inp w in
  r.1 = Stopped
  /\ log r.2
     = log w ++ page_setup ++ messages_setup w ++ upload_form
       ++ [ Render (StWarning "Please upload PDF documents to continue!");
            Render StStop ]
  /\ history r.2 = stored_messages w
  /\ fs r.2 = fs w /\ cache r.2 = cache w /\ ext r.2 = ext w.
Proof.
  intros Hbelow Hempty r. subst r.
  destruct (script_reaches_upload inp w Hbelow) as (k & Hrun & _).
  rewrite Hrun, bind_run. clear Hrun.
  match goal with
  | |- context [show_upload_documents _ _ _ _ ?w1] =>
      assert (Hstop : show_upload_documents rag py cfg (uploaded_files inp)
                        w1
                      = (Stopped,
                         with_log
                           (log w1 ++ upload_form
                            ++ [ Render (StWarning
                                           "Please upload PDF documents to continue!");
                                 Render StStop ]) w1))
  end.
  { assert (Htruthy : truthy_files (uploaded_files inp) = false)
      by (by destruct Hempty as [-> | ->]).
    unfold show_upload_documents.
    do 6 (rewrite bind_run, st_run; world_simpl).
    rewrite Htruthy. simpl negb. cbv iota.
    rewrite bind_run, bind_run, st_run. world_simpl.
    unfold st_stop. world_simpl. unfold upload_form.
    by rewrite <- !(assoc_L (++)). }
  rewrite Hstop. world_simpl.
  split_and!; try done.
  by rewrite <- !(assoc_L (++)).
Qed.

(** X14: A session that finds its files already in the cache, without having
    built a chain itself: [build_qa_chain] returns the cached chain and
    sets nothing, so [st.session_state.last_trained] is missing when the
    script reads it.  The run raises [AttributeError] after the version
    box; neither the history nor the chat input is drawn. *)
Theorem script_cached_chain_in_new_session inp files chain (w : World) :
  below_limit cfg w ->
  uploaded_files inp = Some files ->
  files <> [] ->
  cache w !! files = Some chain ->
  last_trained (session w) = None ->
  let r := script rag py cfg inp w in
  r.1 = Raised (AttributeError "last_trained")
  /\ log r.2
     = log w ++ page_setup ++ messages_setup w ++ upload_form
       ++ [ Render (StSpinner "Analyzing your document(s)...");
            Render StHolderEmpty;
            Render (StMarkdown "
                # :rainbow[VectoScalar-GPT] 🆚🤖
            ");
            Render StColumns;
            Render (StSuccess ("Version : " +:+ VERSION cfg)) ]
  /\ ext r.2 = ext w.
Proof.
  intros Hbelow Hup Hfiles Hcache Hnone r. subst r.
  destruct (script_reaches_upload inp w Hbelow) as (k & Hrun & ->).
  rewrite Hrun, bind_run, Hup. clear Hrun.
  rewrite (show_upload_documents_run files _ Hfiles).
  rewrite (build_qa_chain_hit files chain); [|exact Hcache].
  do 3 (rewrite bind_run, st_run; world_simpl).
  rewrite bind_run. unfold get_last_trained. world_simpl. rewrite Hnone.
  world_simpl. split_and!; try done.
  by rewrite <- !(assoc_L (++)).
Qed.

(** A call that runs its body with collaborators that all return. *)
Lemma build_qa_chain_returns files (w : World)
    file_paths x1 vector_store x2 llm x3 retriever x4 chain x5 :
  cache w !! files = None ->
  upload_files rag files (ext w) = (Ok file_paths, x1) ->
  ingest rag file_paths x1 = (Ok vector_store, x2) ->
  create_llm rag x2 = (Ok llm, x3) ->
  create_retriever rag llm vector_store x3 = (Ok retriever, x4) ->
  create_chain rag llm retriever x4 = (Ok chain, x5) ->
  build_qa_chain rag py cfg files w
  = (Ret chain,
     with_cache (<[files := chain]> (cache w))
       (with_ext x5
          (called rag (CallCreateChain llm retriever)
             (with_ext x4
                (called rag (CallCreateRetriever llm vector_store)
                   (with_ext x3
                      (called rag CallCreateLlm
                         (with_ext x2
                            (called rag (CallIngest file_paths)
                               (with_ext x1
                                  (called rag (CallUploadFiles files)
                                     (training_recorded py cfg files
                                        w)))))))))))).
Proof.
  intros Hmiss H1 H2 H3 H4 H5.
  unfold build_qa_chain, cache_resource.
  rewrite Hmiss, build_qa_chain_body_halves.
  generalize (eq_refl : ext (training_recorded py cfg files w) = ext w).
  generalize (eq_refl : cache (training_recorded py cfg files w) = cache w).
  generalize (training_recorded py cfg files w) as w1.
  intros w1 Hcache Hext. unfold collaborator_pipeline.
  rewrite bind_run. unfold call at 1. rewrite Hext, H1. world_simpl.
  rewrite bind_run. unfold call at 1. world_simpl. rewrite H2.
  rewrite bind_run. unfold call at 1. world_simpl. rewrite H3.
  rewrite bind_run. unfold call at 1. world_simpl. rewrite H4.
  unfold call. world_simpl. rewrite H5. world_simpl.
  rewrite Hcache. reflexivity.
Qed.

(** X16: The first successful run with uploaded files and no question, from
    start to end: page set-up, upload form, the training record, the
    five collaborator calls, then the boxes that show the version, the
    timestamp and the count just recorded, then the stored messages,
    then the chat input.  The chain is cached and the history is not
    changed. *)
Theorem script_first_run inp files (w : World)
    file_paths x1 vector_store x2 llm x3 retriever x4 chain x5 :
  below_limit cfg w ->
  uploaded_files inp = Some files ->
  files <> [] ->
  prompt inp = None ->
  cache w !! files = None ->
  upload_files rag files (ext w) = (Ok file_paths, x1) ->
  ingest rag file_paths x1 = (Ok vector_store, x2) ->
  create_llm rag x2 = (Ok llm, x3) ->
  create_retriever rag llm vector_store x3 = (Ok retriever, x4) ->
  create_chain rag llm retriever x4 = (Ok chain, x5) ->
  let r := script rag py cfg inp w in
  let dt := datetime_now py (ext w) in
  r.1 = Ret tt
  /\ log r.2
     = log w ++ page_setup ++ messages_setup w ++ upload_form
       ++ [ Render (StSpinner "Analyzing your document(s)...");
            Render StHolderEmpty ]
       ++ training_record cfg dt (length files)
       ++ [ CallUploadFiles files;
            CallIngest file_paths;
            CallCreateLlm;
            CallCreateRetriever llm vector_store;
            CallCreateChain llm retriever ]
       ++ [ Render (StMarkdown "
                # :rainbow[VectoScalar-GPT] 🆚🤖
            ");
            Render StColumns;
            Render (StSuccess ("Version : " +:+ VERSION cfg));
            Render (StInfo ("Last Trained : " +:+ strftime dt));
            Render (StWarning
                      ("Files Ingested : " +:+ str_of_nat (length files))) ]
       ++ flat_map (chat_bubble cfg) (stored_messages w)
       ++ [ Render (StChatInput "Ask your question here") ]
  /\ history r.2 = stored_messages w
  /\ cache r.2 = <[files := chain]> (cache w)
  /\ ext r.2 = x5.
Proof.
  intros Hbelow Hup Hfiles Hprompt Hmiss H1 H2 H3 H4 H5 r dt.
  enough (exists w',
             r = (Ret tt, w')
             /\ log w'
                = log w ++ page_setup ++ messages_setup w ++ upload_form
                  ++ [ Render (StSpinner "Analyzing your document(s)...");
                       Render StHolderEmpty ]
                  ++ training_record cfg dt (length files)
                  ++ [ CallUploadFiles files;
                       CallIngest file_paths;
                       CallCreateLlm;
                       CallCreateRetriever llm vector_store;
                       CallCreateChain llm retriever ]
                  ++ [ Render (StMarkdown "
                # :rainbow[VectoScalar-GPT] 🆚🤖
            ");
                       Render StColumns;
                       Render (StSuccess ("Version : " +:+ VERSION cfg));
                       Render (StInfo ("Last Trained : " +:+ strftime dt));
                       Render (StWarning
                                 ("Files Ingested : "
                                  +:+ str_of_nat (length files))) ]
                  ++ flat_map (chat_bubble cfg) (stored_messages w)
                  ++ [ Render (StChatInput "Ask your question here") ]
             /\ history w' = stored_messages w
             /\ cache w' = <[files := chain]> (cache w)
             /\ ext w' = x5)
    as (w' & -> & Hlog & Hhistory & Hcache & Hext) by done.
  subst r.
  destruct (script_reaches_upload inp w Hbelow) as (k & Hrun & ->).
  rewrite Hrun, bind_run, Hup, Hprompt. clear Hrun.
  rewrite (show_upload_documents_run files _ Hfiles).
  rewrite (build_qa_chain_returns files _ file_paths x1 vector_store x2
             llm x3 retriever x4 chain x5);
    [|exact Hmiss|exact H1|exact H2|exact H3|exact H4|exact H5].
  unfold training_recorded. world_simpl.
  do 3 (rewrite bind_run, st_run; world_simpl).
  rewrite bind_run. unfold get_last_trained at 1. world_simpl.
  cbn [messages last_trained files_ingested].
  rewrite bind_run, st_run. world_simpl.
  rewrite bind_run. unfold get_files_ingested at 1. world_simpl.
  cbn [messages last_trained files_ingested].
  rewrite bind_run, st_run. world_simpl.
  rewrite bind_run.
  rewrite (show_message_history_run _ (stored_messages w));
    [|by world_simpl; cbn [messages last_trained files_ingested]].
  rewrite show_chat_input_idle; [|by left].
  eexists. split; [reflexivity|]. world_simpl. fold dt.
  split_and!; try done.
  by rewrite <- !(assoc_L (++)).
Qed.
End Proofs.

(** ** The properties at work on the concrete deployment *)

(** The collaborators of the concrete deployment store the uploads under
    [docs] and the index under [db/index]; they leave
    [db/training_info.txt] alone. *)
Lemma demo_rag_keeps_training_info limit :
  keeps_training_info Demo.rag (Demo.cfg limit).
Proof.
  intros e x disk directories _. destruct e; try reflexivity.
  - simpl. induction files as [|f files IH]; [reflexivity|].
    simpl. rewrite lookup_insert_ne; [exact IH|]. intros [=].
  - simpl. apply lookup_insert_ne. intros [=].
Qed.

Lemma build_qa_chain_training_info_witness :
  let r := build_qa_chain Demo.rag Demo.py (Demo.cfg 0) [Demo.fileA] Demo.w0 in
  cache Demo.w0 !! [Demo.fileA] = None
  /\ keeps_training_info Demo.rag (Demo.cfg 0)
  /\ split_lines <$> training_info (Demo.cfg 0) r.2
     = Some ["Last Trained: 2024-07-03 09:41:00"; "Files Ingested: 1"]
  /\ fs r.2 !! "docs/a.pdf" = Some "AAAA"
  /\ fs r.2 !! "db/index" = Some "vectors".
Proof.
  intros r. split; [reflexivity|].
  split; [exact (demo_rag_keeps_training_info 0)|].
  destruct (build_qa_chain_training_info Demo.rag Demo.py (Demo.cfg 0)
              [Demo.fileA] Demo.w0 eq_refl)
    as (_ & _ & Hlines).
  split_and!.
  - exact (Hlines (demo_rag_keeps_training_info 0)).
  - vm_compute. reflexivity.
  - vm_compute. reflexivity.
Defined.

(** C1 fails as stated: the user uploads [fileA], then [fileB] and
    [fileC], then [fileA] again.  The third call of [build_qa_chain] is
    answered from the cache; the file still records the second call, its
    timestamp and its two files, although one file was passed in. *)
Lemma build_qa_chain_training_info_counterexample :
  let w := Demo.w_after_A_then_BC in
  let r := build_qa_chain Demo.rag Demo.py (Demo.cfg 0) [Demo.fileA] w in
  split_lines <$> training_info (Demo.cfg 0) r.2
  = Some ["Last Trained: 2024-07-03 09:41:05"; "Files Ingested: 2"]
  /\ strftime (datetime_now Demo.py (ext w)) = "2024-07-03 09:41:10"
  /\ length [Demo.fileA] = 1
  /\ split_lines <$> training_info (Demo.cfg 0) r.2
     <> Some [ "Last Trained: " +:+ strftime (datetime_now Demo.py (ext w));
               "Files Ingested: " +:+ str_of_nat (length [Demo.fileA]) ].
Proof.
  vm_compute. split_and!; try reflexivity. intros [=].
Qed.

Lemma show_upload_documents_no_files_witness :
  let r := show_upload_documents Demo.rag Demo.py (Demo.cfg 0) None Demo.w0 in
  r.1 = Stopped
  /\ last (log r.2) = Some (Render StStop)
  /\ collaborator_calls (log r.2) = collaborator_calls (log Demo.w0).
Proof.
  destruct (show_upload_documents_no_files Demo.rag Demo.py (Demo.cfg 0)
              None Demo.w0 (or_introl eq_refl))
    as (Hstop & Hworld & Hcalls).
  split_and!; [exact Hstop| |exact Hcalls].
  rewrite Hworld. reflexivity.
Defined.

Lemma script_conversation_limit_witness :
  let inp := {| uploaded_files := Some [Demo.fileA]; prompt := Some "hi" |} in
  let r := script Demo.rag Demo.py (Demo.cfg 1) inp Demo.w0 in
  (0 < CONVERSATION_MESSAGES_LIMIT (Demo.cfg 1))%Z
  /\ r.1 = Stopped
  /\ history r.2 = [greeting]
  /\ cache r.2 = cache Demo.w0.
Proof.
  intros inp r. split; [reflexivity|].
  destruct (script_conversation_limit Demo.rag Demo.py (Demo.cfg 1) inp
              Demo.w0)
    as (Hstop & _ & Hhistory & _ & Hcache & _).
  - reflexivity.
  - discriminate.
  - split_and!; [exact Hstop|exact Hhistory|exact Hcache].
Defined.

(** C3 fails as stated: with a limit of [0] the stored greeting already
    reaches the limit, yet the run is not halted: the upload handler
    runs, the chain is built and the run ends normally, without the
    warning about the conversation limit. *)
Lemma script_conversation_limit_counterexample :
  let inp := {| uploaded_files := Some [Demo.fileA]; prompt := None |} in
  let r := script Demo.rag Demo.py (Demo.cfg 0) inp Demo.w_greeted in
  (CONVERSATION_MESSAGES_LIMIT (Demo.cfg 0)
   <= Z.of_nat (length (history Demo.w_greeted)))%Z
  /\ r.1 = Ret tt
  /\ In (Render (StFileUploader "Upload PDF files")) (log r.2)
  /\ collaborator_calls (log r.2) = pipeline_order
  /\ ~ In (Render (StWarning
                     "You have reached the conversation limit. Refresh the page to start a new conversation."))
          (log r.2).
Proof.
  vm_compute. split_and!; try reflexivity.
  - discriminate.
  - tauto.
  - intros H. repeat (destruct H as [H|H]; [discriminate H|]). exact H.
Qed.

Lemma ask_chain_full_response_witness :
  let r := ask_chain Demo.rag Demo.py (Demo.cfg 0) "hi" 7 Demo.w_greeted in
  messages (session Demo.w_greeted) = Some [greeting]
  /\ r.1 = Ret tt
  /\ messages (session r.2)
     = Some [greeting; {| role := "assistant"; content := "Hello" |}]
  /\ placeholder_markdowns (log r.2) = ["Hel"; "Hello"].
Proof.
  intros r. split; [reflexivity|].
  destruct (ask_chain_full_response Demo.rag Demo.py (Demo.cfg 0) "hi" 7
              Demo.w_greeted [greeting] Demo.answer 2 eq_refl eq_refl)
    as (Hret & Hmessages & Hshown & _).
  split_and!; [exact Hret|exact Hmessages|exact Hshown].
Defined.

Lemma ask_chain_documents_witness :
  let r := ask_chain Demo.rag Demo.py (Demo.cfg 0) "hi" 7 Demo.w_greeted in
  written_sources (log r.2) = ["page 1"; "page 2"].
Proof.
  intros r.
  destruct (ask_chain_documents Demo.rag Demo.py (Demo.cfg 0) "hi" 7
              Demo.w_greeted Demo.answer 2 eq_refl)
    as (_ & Hsources).
  exact Hsources.
Defined.

Lemma build_qa_chain_pipeline_witness :
  let r := build_qa_chain Demo.rag Demo.py (Demo.cfg 0) [Demo.fileA] Demo.w0 in
  cache Demo.w0 !! [Demo.fileA] = None
  /\ r.1 = Ret 105
  /\ collaborator_calls (log r.2) = pipeline_order
  /\ cache r.2 !! [Demo.fileA] = Some 105.
Proof.
  intros r. split; [reflexivity|].
  destruct (build_qa_chain_pipeline Demo.rag Demo.py (Demo.cfg 0)
              [Demo.fileA] Demo.w0 eq_refl)
    as (Hret & Hlog & _ & Hcache).
  split_and!.
  - exact Hret.
  - exact (eq_trans (f_equal collaborator_calls Hlog) eq_refl).
  - exact (eq_trans (f_equal (fun c => c !! [Demo.fileA]) Hcache)
             (lookup_insert_eq _ _ _)).
Defined.

(** The vector database is down when [fileA] is uploaded: [upload_files]
    and [ingest] are called, the call raises what [ingest] raised, and
    neither a later collaborator is called nor a chain cached. *)
Lemma build_qa_chain_pipeline_stops :
  let r :=
    build_qa_chain Demo.rag_ingest_fails Demo.py (Demo.cfg 0) [Demo.fileA]
      Demo.w0 in
  r.1 = Raised (CollaboratorError "qdrant unreachable")
  /\ collaborator_calls (log r.2) = [UploadFiles; Ingest]
  /\ cache r.2 = cache Demo.w0.
Proof.
  vm_compute. split_and!; reflexivity.
Qed.

(** C6 fails as stated: the user uploads [fileA] and the script is rerun
    with the same upload.  The second call of [build_qa_chain] has a
    non-empty list of files, calls no collaborator and returns the chain
    stored by the first call. *)
Lemma build_qa_chain_pipeline_counterexample :
  let w := Demo.w_after_A in
  let r := build_qa_chain Demo.rag Demo.py (Demo.cfg 0) [Demo.fileA] w in
  [Demo.fileA] <> []
  /\ r.1 = Ret 105
  /\ log r.2 = log w
  /\ ~ (exists cs,
          collaborator_calls (log r.2) = collaborator_calls (log w) ++ cs
          /\ cs = pipeline_order).
Proof.
  vm_compute. split_and!; try reflexivity.
  - discriminate.
  - intros (cs & Hcs & ->). discriminate Hcs.
Qed.


(** ** The further properties on the concrete deployment *)

Lemma limit_guard_fires_iff_witness :
  messages (session Demo.w_greeted) = Some [greeting]
  /\ (limit_guard (Exn := string) (Demo.cfg 1) Demo.w_greeted).1 = Stopped.
Proof.
  split; [reflexivity|].
  destruct (limit_guard_fires_iff (Exn := string) (Demo.cfg 1) Demo.w_greeted
              [greeting] eq_refl) as [Hiff _].
  apply Hiff. split; [reflexivity|discriminate].
Defined.

Lemma conversation_frozen_at_limit_witness :
  let runs :=
    [ {| uploaded_files := Some [Demo.fileA]; prompt := Some "hi" |};
      {| uploaded_files := None; prompt := None |} ] in
  let w' := session_runs Demo.rag Demo.py (Demo.cfg 1) runs Demo.w_greeted in
  session w' = session Demo.w_greeted /\ cache w' = cache Demo.w_greeted.
Proof.
  intros runs w'.
  destruct (conversation_frozen_at_limit Demo.rag Demo.py (Demo.cfg 1) runs
              Demo.w_greeted [greeting] eq_refl)
    as (Hsession & _ & Hcache & _).
  - split; [reflexivity|discriminate].
  - split; [exact Hsession|exact Hcache].
Defined.

Lemma show_chat_input_no_prompt_witness :
  let r :=
    show_chat_input Demo.rag Demo.py (Demo.cfg 0) 105 (Some "")
      Demo.w_greeted in
  r.1 = Ret tt /\ session r.2 = session Demo.w_greeted.
Proof.
  intros r.
  destruct (show_chat_input_no_prompt Demo.rag Demo.py (Demo.cfg 0) 105
              (Some "") Demo.w_greeted (or_intror eq_refl))
    as (Hret & _ & Hsession & _).
  split; [exact Hret|exact Hsession].
Defined.

Lemma show_chat_input_answered_witness :
  let r :=
    show_chat_input Demo.rag Demo.py (Demo.cfg 0) 105 (Some "hi")
      Demo.w_greeted in
  r.1 = Ret tt
  /\ messages (session r.2)
     = Some [ greeting;
              {| role := "user"; content := "hi" |};
              {| role := "assistant"; content := "Hello" |} ].
Proof.
  apply (show_chat_input_answered Demo.rag Demo.py (Demo.cfg 0) 105 "hi"
           Demo.w_greeted [greeting] Demo.answer 2).
  - discriminate.
  - reflexivity.
  - reflexivity.
Defined.

Lemma show_chat_input_stream_raises_witness :
  let r :=
    show_chat_input Demo.rag_stream_fails Demo.py (Demo.cfg 0) 105 (Some "hi")
      Demo.w_greeted in
  r.1 = Raised (CollaboratorError "connection reset")
  /\ messages (session r.2)
     = Some [greeting; {| role := "user"; content := "hi" |}]
  /\ placeholder_markdowns (log r.2) = ["Hel"].
Proof.
  intros r.
  destruct (show_chat_input_stream_raises Demo.rag_stream_fails Demo.py
              (Demo.cfg 0) 105 "hi" Demo.w_greeted [greeting] [EvStr "Hel"]
              "connection reset" 2)
    as (Hraised & Hmessages & Hshown & _).
  - discriminate.
  - reflexivity.
  - reflexivity.
  - split_and!; [exact Hraised|exact Hmessages|exact Hshown].
Defined.

Lemma ask_chain_source_labels_witness :
  expander_labels
    (log (ask_chain Demo.rag Demo.py (Demo.cfg 0) "hi" 105 Demo.w_greeted).2)
  = ["Source #1"; "Source #2"].
Proof.
  apply (ask_chain_source_labels Demo.rag Demo.py (Demo.cfg 0) "hi" 105
           Demo.w_greeted [greeting] Demo.answer 2); reflexivity.
Defined.


Lemma script_without_upload_witness :
  let inp := {| uploaded_files := Some []; prompt := Some "hi" |} in
  let r := script Demo.rag Demo.py (Demo.cfg 0) inp Demo.w0 in
  r.1 = Stopped /\ history r.2 = [greeting] /\ cache r.2 = cache Demo.w0.
Proof.
  intros inp r.
  destruct (script_without_upload Demo.rag Demo.py (Demo.cfg 0) inp Demo.w0)
    as (Hstop & _ & Hhistory & _ & Hcache & _).
  - left. apply Z.le_refl.
  - right. reflexivity.
  - split_and!; [exact Hstop|exact Hhistory|exact Hcache].
Defined.

Lemma script_cached_chain_in_new_session_witness :
  let inp := {| uploaded_files := Some [Demo.fileA]; prompt := None |} in
  cache Demo.w_second_session !! [Demo.fileA] = Some 105
  /\ (script Demo.rag Demo.py (Demo.cfg 0) inp Demo.w_second_session).1
     = Raised (AttributeError "last_trained").
Proof.
  intros inp. split; [vm_compute; reflexivity|].
  destruct (script_cached_chain_in_new_session Demo.rag Demo.py (Demo.cfg 0)
              inp [Demo.fileA] 105 Demo.w_second_session)
    as (Hraised & _).
  - left. apply Z.le_refl.
  - reflexivity.
  - discriminate.
  - vm_compute. reflexivity.
  - reflexivity.
  - exact Hraised.
Defined.

Lemma script_first_run_witness :
  let inp := {| uploaded_files := Some [Demo.fileA]; prompt := None |} in
  let r := script Demo.rag Demo.py (Demo.cfg 0) inp Demo.w0 in
  r.1 = Ret tt
  /\ history r.2 = [greeting]
  /\ cache r.2 = <[ [Demo.fileA] := 105 ]> (cache Demo.w0).
Proof.
  intros inp r.
  destruct (script_first_run Demo.rag Demo.py (Demo.cfg 0) inp [Demo.fileA]
              Demo.w0 ["a.pdf"] 1 1 2 "llm" 3 101 4 105 5)
    as (Hret & _ & Hhistory & Hcache & _).
  - left. apply Z.le_refl.
  - reflexivity.
  - discriminate.
  - reflexivity.
  - reflexivity.
  - reflexivity.
  - reflexivity.
  - reflexivity.
  - reflexivity.
  - reflexivity.
  - split_and!; [exact Hret|exact Hhistory|exact Hcache].
Defined.
